(** * Pagination of the user routes: link header and response headers

    A shallow embedding of [getLinkHeader], [userUploadsGet] and
    [userPinsGet] of the API's user module, with the JavaScript values
    they handle, and the properties of the headers they build. *)

From Stdlib Require Import ZArith String Ascii List Lia DecimalString.
From Stdlib Require QArith Qround.
From stdpp Require Import gmap strings list.

Open Scope string_scope.
Open Scope Z_scope.

(** ** JavaScript values *)

Module Js.

(** Numbers as this module meets them. Counts, sizes and page numbers are
    integers (taken as mathematical integers: the model does not round them
    to 53 bits); a quotient can also be one of the three non-finite values.
    The negative zero is not told apart from zero: it prints as 0 and
    compares like 0. *)
Inductive number : Type :=
| Int (z : Z)
| Infinity
| NegInfinity
| NaN.

(** What a property read can give: a value of an optional numeric property
    is [undefined] when the property is absent. *)
Inductive value : Type :=
| undefined
| Num (n : number)
| Str (s : string).

(** Reading an optional integer property. *)
Definition prop (o : option Z) : value :=
  match o with
  | Some z => Num (Int z)
  | None => undefined
  end.

(** [ToNumber] of an optional integer property: undefined becomes NaN. *)
Definition ToNumber (o : option Z) : number :=
  match o with
  | Some z => Int z
  | None => NaN
  end.

(** The result of [a / b] before rounding. *)
Inductive quotient : Type :=
| Ratio (q : QArith_base.Q)
| QInfinity
| QNegInfinity
| QNaN.

(** [a / b] on numbers that are integers or NaN (the operands this module
    divides). *)
Definition div (a b : number) : quotient :=
  match a, b with
  | Int x, Int y =>
      if y =? 0 then
        if 0 <? x then QInfinity
        else if x <? 0 then QNegInfinity
        else QNaN
      else Ratio (QArith_base.Qdiv (QArith_base.inject_Z x) (QArith_base.inject_Z y))
  | Int x, Infinity | Int x, NegInfinity => Ratio (QArith_base.inject_Z 0)
  | Infinity, Int y => if y <? 0 then QNegInfinity else QInfinity
  | NegInfinity, Int y => if y <? 0 then QInfinity else QNegInfinity
  | _, _ => QNaN
  end.

(** [Math.ceil]. *)
Definition Math_ceil (x : quotient) : number :=
  match x with
  | Ratio q => Int (Qround.Qceiling q)
  | QInfinity => Infinity
  | QNegInfinity => NegInfinity
  | QNaN => NaN
  end.

(** [a < b] and [a > b] with an integer on the left. *)
Definition lt (a : Z) (b : number) : bool :=
  match b with
  | Int z => a <? z
  | Infinity => true
  | NegInfinity | NaN => false
  end.

Definition gt (a : Z) (b : number) : bool :=
  match b with
  | Int z => z <? a
  | NegInfinity => true
  | Infinity | NaN => false
  end.

(** [items.length === size]: strict equality of a length with a property
    that may be absent. *)
Definition strict_eq_length (n : nat) (size : option Z) : bool :=
  match size with
  | Some s => Z.of_nat n =? s
  | None => false
  end.

(** [String(v)]. *)
Definition string_of_Z (z : Z) : string :=
  NilZero.string_of_int (Z.to_int z).

Definition ToString (v : value) : string :=
  match v with
  | undefined => "undefined"
  | Num (Int z) => string_of_Z z
  | Num Infinity => "Infinity"
  | Num NegInfinity => "-Infinity"
  | Num NaN => "NaN"
  | Str s => s
  end.

(** [a - b] and [a * b]. *)
Definition sub (a : number) (b : Z) : number :=
  match a with
  | Int x => Int (x - b)
  | other => other
  end.

Definition mul (a b : number) : number :=
  match a, b with
  | Int x, Int y => Int (x * y)
  | NaN, _ | _, NaN => NaN
  | Int x, Infinity | Infinity, Int x =>
      if x =? 0 then NaN else if 0 <? x then Infinity else NegInfinity
  | Int x, NegInfinity | NegInfinity, Int x =>
      if x =? 0 then NaN else if 0 <? x then NegInfinity else Infinity
  | Infinity, Infinity | NegInfinity, NegInfinity => Infinity
  | Infinity, NegInfinity | NegInfinity, Infinity => NegInfinity
  end.

(** A string in a condition: the empty string is the only falsy one. *)
Definition truthy (s : string) : bool :=
  match s with
  | EmptyString => false
  | String _ _ => true
  end.

(** [Array.prototype.push], as a new array. *)
Definition push {A} (arr : list A) (x : A) : list A := (arr ++ [x])%list.

(** [Array.prototype.join]. *)
Definition join (sep : string) (l : list string) : string :=
  String.concat sep l.

(** Error objects raised by the collaborators (parser, validator, data
    layer), with their [code] property. *)
Record ErrorObject : Type := {
  code : option string;
  message : string
}.

(** What the handlers of this module throw: the errors they construct, and
    the collaborators' errors they let through or throw again. *)
Inductive thrown : Type :=
| New_Error (msg : string)
| New_TypeError
| New_RangeNotSatisfiableError
| Raised (err : ErrorObject).

Inductive completion (E A : Type) : Type :=
| Normal (a : A)
| Throw (e : E).

Arguments Normal {E A} a.
Arguments Throw {E A} e.

Definition bind {E A B} (c : completion E A) (k : A -> completion E B)
  : completion E B :=
  match c with
  | Normal a => k a
  | Throw e => Throw e
  end.

(** An awaited call to a collaborator outside any [try]: its error goes up
    as it is. *)
Definition await {A} (c : completion ErrorObject A) : completion thrown A :=
  match c with
  | Normal a => Normal a
  | Throw err => Throw (Raised err)
  end.

End Js.

Import Js.

Notation "'let*' x ':=' c 'in' k" := (Js.bind c (fun x => k))
  (at level 10, x name, c at level 100, k at level 200).

(** ** URLSearchParams *)

Module URLSearchParams.

(** The bytes the application/x-www-form-urlencoded serializer leaves as
    they are: ASCII letters and digits, and the four marks [*], [-], [.]
    and [_]. Strings are taken as their UTF-8 bytes. *)
Definition unreserved (c : ascii) : bool :=
  let n := N_of_ascii c in
  ((48 <=? n) && (n <=? 57) || (65 <=? n) && (n <=? 90)
   || (97 <=? n) && (n <=? 122)
   || (n =? 42) || (n =? 45) || (n =? 46) || (n =? 95))%N.

Definition hex_digit (n : N) : ascii :=
  ascii_of_N (if (n <? 10)%N then 48 + n else 55 + n)%N.

Definition percent_encode (c : ascii) : string :=
  let n := N_of_ascii c in
  String "%" (String (hex_digit (n / 16)) (String (hex_digit (n mod 16)) "")).

Definition encode_byte (c : ascii) : string :=
  if Ascii.eqb c " " then "+"
  else if unreserved c then String c ""
  else percent_encode c.

Fixpoint urlencode (s : string) : string :=
  match s with
  | EmptyString => ""
  | String c rest => encode_byte c +:+ urlencode rest
  end.

(** [new URLSearchParams({ k1: v1, k2: v2 })]: the pairs in the order of the
    object's keys, every value converted to a string. *)
Definition t : Type := list (string * string).

Definition new (init : list (string * value)) : t :=
  map (fun kv => (fst kv, ToString (snd kv))) init.

(** The string a template literal gives for the parameters. *)
Definition toString (params : t) : string :=
  join "&" (map (fun kv => urlencode (fst kv) +:+ "=" +:+ urlencode (snd kv)) params).

End URLSearchParams.

(** ** Page requests and link relations *)

(** A page request: an object with the optional properties [before], [page]
    and [size]. A property is in the object exactly when its field is
    [Some]. *)
Record PageRequest : Type := {
  before : option string;
  page : option Z;
  size : option Z
}.

(** Items expose a [created] string. *)
Class Created (A : Type) : Type := created : A -> string.

Definition dquote : string := String "034" "".

(** The template literal [<${url}?${params}>; rel="name"]. *)
Definition link (url : string) (params : URLSearchParams.t) (name : string) : string :=
  "<" +:+ url +:+ "?" +:+ URLSearchParams.toString params +:+ ">; rel="
  +:+ dquote +:+ name +:+ dquote.

(** The array [rels] of [getLinkHeader] at its [return]. *)
Definition getLinkRels {Item} `{Created Item} (url : string)
    (pageRequest : PageRequest) (items : list Item) (count : option Z)
  : completion thrown (list string) :=
  let rels := [] in
  match before pageRequest with
  | Some _ =>
      let size := size pageRequest in
      if strict_eq_length (length items) size then
        (* oldest = items[items.length - 1]; oldest.created *)
        match last items with
        | None => Throw New_TypeError
        | Some oldest =>
            let nextParams :=
              URLSearchParams.new [("size", prop size); ("before", Str (created oldest))] in
            Normal (push rels (link url nextParams "next"))
        end
      else Normal rels
  | None =>
      match page pageRequest with
      | Some page =>
          let size := size pageRequest in
          let pages := Math_ceil (div (ToNumber count) (ToNumber size)) in
          let rels :=
            if lt page pages then
              let nextParams :=
                URLSearchParams.new [("size", prop size); ("page", Num (Int (page + 1)))] in
              push rels (link url nextParams "next")
            else rels in
          let lastParams :=
            URLSearchParams.new [("size", prop size); ("page", Num pages)] in
          let rels := push rels (link url lastParams "last") in
          let firstParams :=
            URLSearchParams.new [("size", prop size); ("page", Num (Int 1))] in
          let rels := push rels (link url firstParams "first") in
          let rels :=
            if gt page (Int 1) then
              let prevParams :=
                URLSearchParams.new [("size", prop size); ("page", Num (Int (page - 1)))] in
              push rels (link url prevParams "previous")
            else rels in
          Normal rels
      | None => Throw (New_Error "unknown page request type")
      end
  end.

(** [getLinkHeader]: the relations joined by a comma and a space. *)
Definition getLinkHeader {Item} `{Created Item} (url : string)
    (pageRequest : PageRequest) (items : list Item) (count : option Z)
  : completion thrown string :=
  let* rels := getLinkRels url pageRequest items count in
  Normal (join ", " rels).

(** ** The handlers *)

(** The request as the handlers read it: the path and the query of its URL,
    and the id of the authenticated user. *)
Record Request : Type := {
  pathname : string;
  searchParams : list (string * string);
  user_id : string
}.

(** [new JSONResponse(body, { headers })]: the body and the headers object
    given to the constructor. *)
Record JSONResponse (B : Type) : Type := {
  body : B;
  headers : gmap string value
}.

Arguments body {B} _.
Arguments headers {B} _.

(** [Object.fromEntries]: of two entries with one key, the later one stays. *)
Definition Object_fromEntries (entries : list (string * string)) : gmap string string :=
  list_to_map (reverse entries).

Module Uploads.
Record t (Upload : Type) : Type := {
  uploads : list Upload;
  count : option Z
}.
Arguments uploads {Upload} _.
Arguments count {Upload} _.
End Uploads.

Module PinRequests.
Record t (PinRequest : Type) : Type := {
  results : list PinRequest;
  count : option Z
}.
Arguments results {PinRequest} _.
Arguments count {PinRequest} _.
End PinRequests.

Record Key : Type := {
  _id : string;
  name : string
}.

(** The result of [validateSearchParams]. *)
Record PsaParams (PsaData : Type) : Type := {
  error : option ErrorObject;
  data : PsaData
}.
Arguments error {PsaData} _.
Arguments data {PsaData} _.

(** The query given to [listPsaPinRequests]: the validated parameters, with
    [limit] and [offset] set from the page request. *)
Record PsaQuery (PsaData : Type) : Type := {
  psa_data : PsaData;
  limit : value;
  offset : number
}.
Arguments psa_data {PsaData} _.
Arguments limit {PsaData} _.
Arguments offset {PsaData} _.

(** The body of the response of [userPinsGet]. *)
Record PinsBody (PinStatus : Type) : Type := {
  body_count : option Z;
  body_results : list PinStatus
}.

Section Handlers.

Context {Upload PinRequest PinStatus PsaData : Type}.
Context `{Created Upload} `{Created PinRequest}.

(** The collaborators imported from other modules. *)
Variable pagination : list (string * string) -> completion ErrorObject PageRequest.
Variable validateSearchParams : gmap string string -> PsaParams PsaData.
Variable toPinStatusResponse : PinRequest -> PinStatus.

(** The data layer, [env.db]. *)
Record Db : Type := {
  listUploads : string -> PageRequest -> completion ErrorObject (Uploads.t Upload);
  listKeys : string -> completion ErrorObject (list Key);
  listPsaPinRequests :
    list string -> PsaQuery PsaData -> completion ErrorObject (PinRequests.t PinRequest)
}.

Record Env : Type := { db : Db }.

Definition userUploadsGet (request : Request) (env : Env)
  : completion thrown (JSONResponse (list Upload)) :=
  let* pageRequest := await (pagination (searchParams request)) in
  let* data :=
    match listUploads (db env) (user_id request) pageRequest with
    | Normal data => Normal data
    | Throw err =>
        if bool_decide (code err = Some "RANGE_NOT_SATISFIABLE_ERROR_DB")
        then Throw New_RangeNotSatisfiableError
        else Throw (Raised err)
    end in
  let headers : gmap string value := {[ "Count" := prop (Uploads.count data) ]} in
  let headers :=
    match size pageRequest with
    | Some size => <[ "Size" := Num (Int size) ]> headers
    | None => headers
    end in
  let headers :=
    match page pageRequest with
    | Some page => <[ "Page" := Num (Int page) ]> headers
    | None => headers
    end in
  let* link :=
    getLinkHeader (pathname request) pageRequest (Uploads.uploads data)
      (Uploads.count data) in
  let headers := if truthy link then <[ "Link" := Str link ]> headers else headers in
  Normal {| body := Uploads.uploads data; headers := headers |}.

Definition userPinsGet (request : Request) (env : Env)
  : completion thrown (JSONResponse (PinsBody PinStatus)) :=
  let* pageRequest := await (pagination (searchParams request)) in
  let params := Object_fromEntries (searchParams request) in
  let psaParams := validateSearchParams params in
  match error psaParams with
  | Some err => Throw (Raised err)
  | None =>
      let* keys := await (listKeys (db env) (user_id request)) in
      let tokens := map _id keys in
      let* pinRequests :=
        match
          listPsaPinRequests (db env) tokens
            {| psa_data := data psaParams;
               limit := prop (size pageRequest);
               offset := mul (ToNumber (size pageRequest))
                             (sub (ToNumber (page pageRequest)) 1) |}
        with
        | Normal pinRequests => Normal pinRequests
        | Throw err =>
            if bool_decide (code err = Some "RANGE_NOT_SATISFIABLE_ERROR_DB")
            then Throw New_RangeNotSatisfiableError
            else Throw (Raised err)
        end in
      let pins := map toPinStatusResponse (PinRequests.results pinRequests) in
      let headers : gmap string value := {[ "Count" := prop (PinRequests.count pinRequests) ]} in
      let headers :=
        match size pageRequest with
        | Some size => <[ "Size" := Num (Int size) ]> headers
        | None => headers
        end in
      let headers :=
        match page pageRequest with
        | Some page => <[ "Page" := Num (Int page) ]> headers
        | None => headers
        end in
      let* link :=
        getLinkHeader (pathname request) pageRequest (PinRequests.results pinRequests)
          (PinRequests.count pinRequests) in
      let headers := if truthy link then <[ "Link" := Str link ]> headers else headers in
      Normal {| body := {| body_count := PinRequests.count pinRequests;
                           body_results := pins |};
                headers := headers |}
  end.

End Handlers.

(** The least item: an object with its [created] property only. *)
Record Item : Type := { item_created : string }.

#[export] Instance Item_Created : Created Item := item_created.

(** ** Vocabulary of the properties *)

(** [pages] is the ceiling of the quotient of [count] by a positive [size]:
    the least number of pages of [size] items that hold [count] items. *)
Definition is_ceil (count size pages : Z) : Prop :=
  (pages - 1) * size < count <= pages * size.

Fixpoint starts_with (p s : list ascii) : bool :=
  match p, s with
  | [], _ => true
  | _ :: _, [] => false
  | c :: p', d :: s' => Ascii.eqb c d && starts_with p' s'
  end.

(** [s.endsWith(suffix)]. *)
Definition endsWith (s suffix : string) : bool :=
  starts_with (reverse (list_ascii_of_string suffix)) (reverse (list_ascii_of_string s)).

(** One relation of a Link header, [<target>; rel="name"]. *)
Definition relation (target name : string) : string :=
  "<" +:+ target +:+ ">; rel=" +:+ dquote +:+ name +:+ dquote.

(** The relation [r] has the name [name]. *)
Definition has_rel (name r : string) : bool :=
  endsWith r ("; rel=" +:+ dquote +:+ name +:+ dquote).

(** The relations [rels] have one of the name [name]. *)
Definition emits (name : string) (rels : list string) : bool :=
  existsb (has_rel name) rels.

Definition rel_names : list string := ["next"; "last"; "first"; "previous"].

(** The query strings of the two modes. *)
Definition offset_query (size page : Z) : string :=
  "size=" +:+ string_of_Z size +:+ "&page=" +:+ string_of_Z page.

Definition cursor_query (size : Z) (before : string) : string :=
  "size=" +:+ string_of_Z size +:+ "&before=" +:+ URLSearchParams.urlencode before.

(** The value of a parameter as the parser of a query reads it back: a plus
    sign is a space, and a percent sign with two hexadecimal digits is the
    byte they write. *)
Definition hex_value (c : ascii) : option N :=
  let n := N_of_ascii c in
  (if (48 <=? n) && (n <=? 57) then Some (n - 48)
   else if (65 <=? n) && (n <=? 70) then Some (n - 55)
   else if (97 <=? n) && (n <=? 102) then Some (n - 87)
   else None)%N.

Fixpoint urldecode (s : string) : string :=
  match s with
  | EmptyString => ""
  | String c rest =>
      if Ascii.eqb c "+" then String " " (urldecode rest)
      else if Ascii.eqb c "%" then
        match rest with
        | String h (String l rest') =>
            match hex_value h, hex_value l with
            | Some a, Some b => String (ascii_of_N (16 * a + b)) (urldecode rest')
            | _, _ => String c (urldecode rest)
            end
        | _ => String c (urldecode rest)
        end
      else String c (urldecode rest)
  end.

(** ** JSON bodies *)

Module Json.

(** A parsed body. Numbers are kept as integers: a handler only asks
    whether one is zero. *)
#[warnings="-register-all"]
Inductive t : Type :=
| JNull
| JBool (b : bool)
| JNumber (z : Z)
| JString (s : string)
| JArray (l : list t)
| JObject (fields : list (string * t)).

(** [v.key] for a value that is neither null nor undefined, and for the keys
    the handlers read, which no string and no array has: of two fields with
    one key the later one stays; [None] is undefined. *)
Definition get (v : t) (key : string) : option t :=
  match v with
  | JObject fields =>
      snd <$> List.find (fun kv => String.eqb (fst kv) key) (reverse fields)
  | _ => None
  end.

(** [v?.key]. *)
Definition get_opt (v : option t) (key : string) : option t :=
  match v with
  | None | Some JNull => None
  | Some v => get v key
  end.

(** A value in a condition. *)
Definition truthy (v : option t) : bool :=
  match v with
  | None | Some JNull => false
  | Some (JBool b) => b
  | Some (JNumber z) => negb (z =? 0)
  | Some (JString s) => Js.truthy s
  | Some (JArray _) | Some (JObject _) => true
  end.

(** [typeof v === 'string']. *)
Definition is_string (v : option t) : bool :=
  match v with
  | Some (JString _) => true
  | _ => false
  end.

(** [a || b]. *)
Definition or (a b : option t) : option t := if truthy a then a else b.

End Json.

(** ** The account handlers *)

(** [s.split(sep)] for a separator of one character. *)
Fixpoint split (sep : ascii) (s : string) : list string :=
  match s with
  | EmptyString => [""]
  | String c rest =>
      if Ascii.eqb c sep then "" :: split sep rest
      else
        match split sep rest with
        | [] => [String c ""]
        | seg :: segs => String c seg :: segs
        end
  end.

(** An optional string in a condition: null, undefined and the empty string
    are falsy. *)
Definition truthy_opt (o : option string) : bool :=
  match o with
  | Some s => truthy s
  | None => false
  end.

Module Account.

(** What these handlers throw: what the handlers above throw, and an error
    given a status with [Object.assign]. *)
Inductive exn : Type :=
| Exn (t : thrown)
| New_Error_status (msg : string) (status : Z).

(** [{ _id, issuer }]. *)
Module User.
Record t : Type := { _id : string; issuer : string }.
End User.

(** The metadata of the authentication provider: each one a string or
    null. *)
Module Metadata.
Record t : Type := {
  issuer : option string;
  email : option string;
  publicAddress : option string
}.
End Metadata.

(** The object [parseGitHub] and [parseMagic] build; [None] is undefined, and
    for [github] also a property that is not there. *)
Module Parsed.
Record t : Type := {
  name : option Json.t;
  picture : option Json.t;
  issuer : option string;
  email : option string;
  github : option Json.t;
  publicAddress : option string
}.
End Parsed.

(** The payload given to [JWT.sign] and the object given to [createKey]. *)
Module Claims.
Record t : Type := { sub : string; iss : string; iat : Z; name : option Json.t }.
End Claims.

Module NewKey.
Record t : Type := { user : string; name : option Json.t; secret : string }.
End NewKey.

(** The request as these handlers read it: the outcome of [request.json()],
    the Authorization header, the authenticated user and the cid of the
    route. *)
Module Request.
Record t : Type := {
  json : completion ErrorObject Json.t;
  Authorization : option string;
  auth_user : User.t;
  params_cid : string
}.
End Request.

(** A response: [new JSONResponse(body, { status, headers })], a status or
    headers not given being [None] and the empty list, or the response of
    [notFound()]. *)
Inductive Response (B : Type) : Type :=
| JSONResponse (body : B) (status : option Z) (headers : list (string * string))
| notFound.

Arguments JSONResponse {B} body status headers.
Arguments notFound {B}.

Section Handlers.

(** Everything outside the handlers that a call can change: the database
    and the billing provider. *)
Variable World : Type.
Variables Key Upload : Type.

(** A handler runs from a world to an outcome and the world it leaves. *)
Definition M (A : Type) : Type := World -> completion exn A * World.

Definition ret {A} (a : A) : M A := fun w => (Normal a, w).

Definition throw {A} (e : exn) : M A := fun w => (Throw e, w).

Definition bind {A B} (c : M A) (k : A -> M B) : M B :=
  fun w =>
    match c w with
    | (Normal a, w') => k a w'
    | (Throw e, w') => (Throw e, w')
    end.

(** Awaited calls outside any [try]: one that reads or computes, and one
    that may write. *)
Definition read {A} (c : completion ErrorObject A) : M A :=
  fun w =>
    match c with
    | Normal a => (Normal a, w)
    | Throw err => (Throw (Exn (Raised err)), w)
    end.

Definition call {A} (f : World -> completion ErrorObject A * World) : M A :=
  fun w =>
    match f w with
    | (Normal a, w') => (Normal a, w')
    | (Throw err, w') => (Throw (Exn (Raised err)), w')
    end.

(** A step that computes, and may throw, without any call. *)
Definition step {A} (c : completion exn A) : M A := fun w => (c, w).

Notation "'let!' x ':=' c 'in' k" := (bind c (fun x => k))
  (at level 10, x name, c at level 100, k at level 200).

(** The authentication provider, which is no part of the world. *)
Record Magic : Type := {
  parseAuthorizationHeader : string -> completion ErrorObject string;
  token_validate : string -> completion ErrorObject unit;
  users_getMetadataByToken : string -> completion ErrorObject Metadata.t
}.

(** The data layer: [upsertUser] and [createKey] may write, [getUser] and
    [getUpload] read. *)
Record Db : Type := {
  upsertUser : Parsed.t -> World -> completion ErrorObject User.t * World;
  getUser : option string -> World -> completion ErrorObject (option User.t);
  createKey : NewKey.t -> World -> completion ErrorObject Key * World;
  getUpload : string -> string -> World -> completion ErrorObject Upload
}.

Record Env : Type := {
  MODE : string;
  SALT : string;
  magic : Magic;
  db : Db
}.

(** The bypass of the authentication provider for tests. *)
Record TestModeBypass : Type := {
  isEnabledForToken : Env -> string -> bool;
  authenticateMagicToken : Env -> string -> completion ErrorObject (option string)
}.

(** What the module imports: the modes and the handler of maintenance.js,
    the default bypass of magic.link.js, the issuer of constants.js,
    [JWT.sign] and [savePaymentSettings]. *)
Variables NO_READ_OR_WRITE READ_WRITE READ_ONLY : string.
Variable maintenanceHandler : completion exn (option User.t).
Variable magicLinkBypassForE2ETestingInTestmode : TestModeBypass.
Variable JWT_ISSUER : string.
Variable JWT_sign : Claims.t -> string -> completion ErrorObject string.
Variable savePaymentSettings :
  Env -> string -> option Json.t -> World -> completion ErrorObject unit * World.

(** [createMagicLoginController(env, testModeBypass).authenticate({ token })]. *)
Definition createTestmodeMetadata (env : Env) (testModeBypass : TestModeBypass)
    (token : string) : completion ErrorObject Metadata.t :=
  match authenticateMagicToken testModeBypass env token with
  | Normal issuer =>
      Normal {| Metadata.issuer := issuer;
                Metadata.email := Some "testMode@magic.link";
                Metadata.publicAddress := issuer |}
  | Throw err => Throw err
  end.

Definition authenticate (env : Env) (testModeBypass : TestModeBypass) (token : string)
  : completion ErrorObject Metadata.t :=
  if isEnabledForToken testModeBypass env token then
    createTestmodeMetadata env testModeBypass token
  else
    match token_validate (magic env) token with
    | Normal _ => users_getMetadataByToken (magic env) token
    | Throw err => Throw err
    end.

(** [parseGitHub({ oauth }, { issuer, email, publicAddress })]: reading a
    property of null or undefined throws. *)
Definition member (v : option Json.t) (key : string) : completion exn (option Json.t) :=
  match v with
  | None | Some Json.JNull => Throw (Exn New_TypeError)
  | Some v => Normal (Json.get v key)
  end.

Definition parseGitHub (data : option Json.t) (metadata : Metadata.t)
  : completion exn Parsed.t :=
  let* oauth := member data "oauth" in
  let* userInfo := member oauth "userInfo" in
  let* name := member userInfo "name" in
  let* picture := member userInfo "picture" in
  let* userHandle := member oauth "userHandle" in
  Normal {| Parsed.name := Json.or name (Some (Json.JString ""));
            Parsed.picture := Json.or picture (Some (Json.JString ""));
            Parsed.issuer := Some (default "" (Metadata.issuer metadata));
            Parsed.email := Metadata.email metadata;
            Parsed.github := userHandle;
            Parsed.publicAddress := Metadata.publicAddress metadata |}.

(** [parseMagic({ issuer, email, publicAddress })]. *)
Definition parseMagic (metadata : Metadata.t) : completion exn Parsed.t :=
  match Metadata.email metadata with
  | None => Throw (Exn New_TypeError)
  | Some email =>
      let name := head (split "@" email) in
      Normal {| Parsed.name := Json.JString <$> name;
                Parsed.picture := Some (Json.JString "");
                Parsed.issuer := Metadata.issuer metadata;
                Parsed.email := Some email;
                Parsed.github := None;
                Parsed.publicAddress := Metadata.publicAddress metadata |}
  end.

(** [v === s] for a string [s]. *)
Definition strict_eq_string (v : option Json.t) (s : string) : bool :=
  match v with
  | Some (Json.JString s') => String.eqb s' s
  | _ => false
  end.

Definition loginOrRegister (request : Request.t) (env : Env) : M (option User.t) :=
  let! data := read (Request.json request) in
  let auth := default "" (Request.Authorization request) in
  let! token := read (parseAuthorizationHeader (magic env) auth) in
  let! metadata :=
    read (authenticate env magicLinkBypassForE2ETestingInTestmode token) in
  if negb (truthy_opt (Metadata.issuer metadata))
     || negb (truthy_opt (Metadata.email metadata))
     || negb (truthy_opt (Metadata.publicAddress metadata))
  then throw (Exn (New_Error "missing required metadata"))
  else
    let! type := step (member (Some data) "type") in
    let! parsed :=
      step (if strict_eq_string type "github"
            then parseGitHub (Json.get data "data") metadata
            else parseMagic metadata) in
    if String.eqb (MODE env) NO_READ_OR_WRITE then
      step maintenanceHandler
    else if String.eqb (MODE env) READ_WRITE then
      let! user := call (upsertUser (db env) parsed) in
      ret (Some user)
    else if String.eqb (MODE env) READ_ONLY then
      let! user := (fun w => read (getUser (db env) (Parsed.issuer parsed) w) w) in
      ret user
    else throw (Exn (New_Error "Unknown maintenance mode")).

(** The body of the response is [{ issuer: user.issuer }]: the issuer. *)
Definition userLoginPost (request : Request.t) (env : Env) : M (Response string) :=
  let! user := loginOrRegister request env in
  match user with
  | None => throw (Exn New_TypeError)
  | Some user => ret (JSONResponse (User.issuer user) None [])
  end.

(** [userTokensPost], with the value of [Date.now()]. *)
Definition userTokensPost (now : Z) (request : Request.t) (env : Env) : M (Response Key) :=
  let! body := read (Request.json request) in
  let! name := step (member (Some body) "name") in
  if negb (Json.truthy name) || negb (Json.is_string name) then
    throw (New_Error_status "invalid name" 400)
  else
    let _id := User._id (Request.auth_user request) in
    let issuer := User.issuer (Request.auth_user request) in
    let sub := issuer in
    let iss := JWT_ISSUER in
    let! secret :=
      read (JWT_sign {| Claims.sub := sub; Claims.iss := iss; Claims.iat := now;
                        Claims.name := name |} (SALT env)) in
    let! key :=
      call (createKey (db env)
              {| NewKey.user := _id; NewKey.name := name; NewKey.secret := secret |}) in
    ret (JSONResponse key (Some 201) []).

Definition userUploadGet (request : Request.t) (env : Env) : M (Response Upload) :=
  let cid := Request.params_cid request in
  fun w =>
    match getUpload (db env) cid (User._id (Request.auth_user request)) w with
    | Normal res => (Normal (JSONResponse res None []), w)
    | Throw error => (Normal notFound, w)
    end.

(** The body of the response is [{ location }]: the location. *)
Definition userPaymentPut (request : Request.t) (env : Env) : M (Response string) :=
  let! requestBody := read (Request.json request) in
  let paymentMethodId := Json.get_opt (Json.get_opt (Some requestBody) "method") "id" in
  if negb (Json.is_string paymentMethodId) then
    throw (New_Error_status "Invalid payment method" 400)
  else
    let! _ :=
      call (savePaymentSettings env (User._id (Request.auth_user request))
              paymentMethodId) in
    let userPaymentSettingsUrl := "/user/payment" in
    ret (JSONResponse userPaymentSettingsUrl (Some 202)
           [("location", userPaymentSettingsUrl)]).

End Handlers.

Arguments ret {World A} a _.
Arguments throw {World A} e _.
Arguments bind {World A B} c k _.
Arguments read {World A} c _.
Arguments call {World A} f _.
Arguments step {World A} c _.
Arguments Build_Db {World Key Upload}.
Arguments upsertUser {World Key Upload} _.
Arguments getUser {World Key Upload} _.
Arguments createKey {World Key Upload} _.
Arguments getUpload {World Key Upload} _.
Arguments Build_Env {World Key Upload}.
Arguments MODE {World Key Upload} _.
Arguments SALT {World Key Upload} _.
Arguments magic {World Key Upload} _.
Arguments db {World Key Upload} _.
Arguments Build_TestModeBypass {World Key Upload}.
Arguments isEnabledForToken {World Key Upload} _.
Arguments authenticateMagicToken {World Key Upload} _.
Arguments createTestmodeMetadata {World Key Upload}.
Arguments authenticate {World Key Upload}.
Arguments loginOrRegister {World Key Upload}.
Arguments userLoginPost {World Key Upload}.
Arguments userTokensPost {World Key Upload}.
Arguments userUploadGet {World Key Upload}.
Arguments userPaymentPut {World Key Upload}.

End Account.

(** A string has the character [c]. *)
Fixpoint contains (c : ascii) (s : string) : bool :=
  match s with
  | EmptyString => false
  | String d rest => Ascii.eqb d c || contains c rest
  end.

(** The bytes an encoded parameter is made of. *)
Definition encoded_byte (c : ascii) : bool :=
  URLSearchParams.unreserved c || Ascii.eqb c "+" || Ascii.eqb c "%".

(** ** Sample inputs *)

Module Sample.

Definition item (c : string) : Item := {| item_created := c |}.

Definition request : Request :=
  {| pathname := "/user/uploads";
     searchParams := [("size", "2"); ("before", "2022-03-01T10:00:00.000Z")];
     user_id := "1" |}.

Definition cursor : PageRequest :=
  {| before := Some "2022-03-01T10:00:00.000Z"; page := None; size := Some 2 |}.

Definition offset : PageRequest :=
  {| before := None; page := Some 1; size := Some 2 |}.

Definition range_error : ErrorObject :=
  {| code := Some "RANGE_NOT_SATISFIABLE_ERROR_DB"; message := "range not satisfiable" |}.

Definition other_error : ErrorObject :=
  {| code := Some "DB_ERROR"; message := "connection lost" |}.

Definition pagination_cursor (params : list (string * string))
  : completion ErrorObject PageRequest := Normal cursor.

Definition toPinStatusResponse (pinRequest : Item) : string := created pinRequest.

Definition validate (params : gmap string string) : PsaParams unit :=
  {| error := None; data := tt |}.

(** A data layer that fails every list call with [err]. *)
Definition failing_db (err : ErrorObject) : @Db Item Item unit :=
  {| listUploads := fun _ _ => Throw err;
     listKeys := fun _ => Normal [{| _id := "7"; name := "key" |}];
     listPsaPinRequests := fun _ _ => Throw err |}.

(** A data layer with one upload older than the cursor, and whose count is
    [count]. *)
Definition db_with_count (count : option Z) : @Db Item Item unit :=
  {| listUploads := fun _ _ =>
       Normal {| Uploads.uploads := [item "2022-02-01T10:00:00.000Z"];
                 Uploads.count := count |};
     listKeys := fun _ => Normal [];
     listPsaPinRequests := fun _ _ =>
       Normal {| PinRequests.results := []; PinRequests.count := count |} |}.

End Sample.

(** ** Sample inputs of the account handlers *)

Module AccountSample.

(** The world is the list of what was written, the last first. *)
Definition World : Type := list string.

Definition user : Account.User.t :=
  {| Account.User._id := "1"; Account.User.issuer := "did:ethr:0x1" |}.

Definition magic : Account.Magic :=
  {| Account.parseAuthorizationHeader := fun auth => Normal auth;
     Account.token_validate := fun _ => Normal tt;
     Account.users_getMetadataByToken := fun _ =>
       Normal {| Account.Metadata.issuer := Some "did:ethr:0x1";
                 Account.Metadata.email := Some "alice@example.org";
                 Account.Metadata.publicAddress := Some "0x1" |} |}.

Definition db : @Account.Db World string string :=
  {| Account.upsertUser := fun parsed w =>
       (Normal {| Account.User._id := "2";
                  Account.User.issuer := default "" (Account.Parsed.issuer parsed) |},
        default "" (Account.Parsed.issuer parsed) :: w);
     Account.getUser := fun _ _ => Normal None;
     Account.createKey := fun key w =>
       (Normal (Account.NewKey.secret key), Account.NewKey.secret key :: w);
     Account.getUpload := fun _ _ _ =>
       Throw {| code := Some "DB_ERROR"; message := "connection lost" |} |}.

Definition env (mode : string) : @Account.Env World string string :=
  {| Account.MODE := mode; Account.SALT := "salt"; Account.magic := magic;
     Account.db := db |}.

Definition bypass : @Account.TestModeBypass World string string :=
  {| Account.isEnabledForToken := fun _ token => String.eqb token "test-token";
     Account.authenticateMagicToken := fun _ _ => Normal (Some "did:ethr:test") |}.

Definition maintenanceHandler : completion Account.exn (option Account.User.t) :=
  Throw (Account.Exn (New_Error "API undergoing maintenance")).

Definition request (body : Json.t) (authorization : string) : Account.Request.t :=
  {| Account.Request.json := Normal body;
     Account.Request.Authorization := Some authorization;
     Account.Request.auth_user := user;
     Account.Request.params_cid := "bafy" |}.

Definition JWT_sign (claims : Account.Claims.t) (salt : string)
  : completion ErrorObject string :=
  Normal (Account.Claims.sub claims +:+ "." +:+ salt).

Definition savePaymentSettings (e : @Account.Env World string string) (user : string)
    (method : option Json.t) (w : World) : completion ErrorObject unit * World :=
  (Normal tt, user :: w).

Definition github_data : Json.t :=
  Json.JObject
    [("oauth",
      Json.JObject
        [("userInfo", Json.JObject [("name", Json.JString "Alice")]);
         ("userHandle", Json.JString "alice")])].

End AccountSample.

Module PinsSample.

Definition third_page (params : list (string * string))
  : completion ErrorObject PageRequest :=
  Normal {| before := None; page := Some 3; size := Some 10 |}.

(** A data layer that answers the list call for the offset 20 only. *)
Definition db_offset_20 : @Db Item Item unit :=
  {| listUploads := fun _ _ => Throw Sample.other_error;
     listKeys := fun _ => Normal [];
     listPsaPinRequests := fun _ query =>
       match offset query with
       | Int 20 => Normal {| PinRequests.results := []; PinRequests.count := Some 0 |}
       | _ => Throw Sample.other_error
       end |}.

End PinsSample.

(** ** Strings *)

Lemma append_nil_l (b : string) : "" +:+ b = b.
Proof. reflexivity. Qed.

Lemma append_cons (c : ascii) (a b : string) : String c a +:+ b = String c (a +:+ b).
Proof. reflexivity. Qed.

Lemma append_assoc (a b c : string) : (a +:+ b) +:+ c = a +:+ (b +:+ c).
Proof.
  induction a as [|x a IH]; [reflexivity |].
  now rewrite !append_cons, IH.
Qed.

Lemma list_ascii_of_string_app (a b : string) :
  list_ascii_of_string (a +:+ b) = (list_ascii_of_string a ++ list_ascii_of_string b)%list.
Proof.
  induction a as [|x a IH]; [reflexivity |].
  rewrite append_cons. simpl. now rewrite IH.
Qed.

Lemma endsWith_app (a b suffix : string) :
  endsWith (a +:+ b) suffix =
  starts_with (reverse (list_ascii_of_string suffix))
    (reverse (list_ascii_of_string b) ++ reverse (list_ascii_of_string a))%list.
Proof. unfold endsWith. now rewrite list_ascii_of_string_app, reverse_app. Qed.

Lemma relation_split (target name : string) :
  relation target name = ("<" +:+ target) +:+ (">; rel=" +:+ dquote +:+ name +:+ dquote).
Proof. unfold relation. now rewrite append_assoc. Qed.

Lemma has_rel_relation (n m target : string) :
  n ∈ rel_names -> m ∈ rel_names -> has_rel n (relation target m) = String.eqb n m.
Proof.
  unfold rel_names. intros Hn Hm.
  unfold has_rel. rewrite relation_split, endsWith_app.
  repeat (apply elem_of_cons in Hn as [-> | Hn]);
    try (now apply elem_of_nil in Hn);
    repeat (apply elem_of_cons in Hm as [-> | Hm]);
    try (now apply elem_of_nil in Hm);
    reflexivity.
Qed.

Lemma link_relation (url : string) (params : URLSearchParams.t) (name : string) :
  link url params name = relation (url +:+ "?" +:+ URLSearchParams.toString params) name.
Proof. unfold link, relation. now rewrite !append_assoc. Qed.

Ltac string_norm :=
  repeat (rewrite append_assoc || rewrite append_cons || rewrite append_nil_l).

(** ** Numbers *)

Lemma Math_ceil_div_pos (c s : Z) :
  0 < s -> exists k, Math_ceil (div (Int c) (Int s)) = Int k /\ is_ceil c s k.
Proof.
  intros Hs. unfold div.
  destruct (Z.eqb_spec s 0) as [->|_]; [lia|].
  eexists; split; [reflexivity|].
  unfold is_ceil.
  destruct s as [|p|p]; try lia.
  unfold Qround.Qceiling, Qround.Qfloor, QArith_base.Qdiv, QArith_base.Qmult,
    QArith_base.Qinv, QArith_base.Qopp, QArith_base.inject_Z.
  cbn [QArith_base.Qnum QArith_base.Qden].
  rewrite Z.mul_1_r, Pos.mul_1_l.
  pose proof (Z.div_mod (- c) (Z.pos p) ltac:(lia)) as Hdm.
  pose proof (Z.mod_pos_bound (- c) (Z.pos p) ltac:(lia)) as Hb.
  nia.
Qed.

Lemma is_ceil_unique (c s k k' : Z) :
  0 < s -> is_ceil c s k -> is_ceil c s k' -> k = k'.
Proof. unfold is_ceil. intros Hs Hk Hk'. nia. Qed.

Lemma is_ceil_zero (s k : Z) : 0 < s -> is_ceil 0 s k -> k = 0.
Proof. unfold is_ceil. intros Hs Hk. nia. Qed.

(** ** Query strings *)

Import URLSearchParams.

Lemma urlencode_cons (c : ascii) (rest : string) :
  urlencode (String c rest) = encode_byte c +:+ urlencode rest.
Proof. reflexivity. Qed.

Lemma urlencode_uint (d : Decimal.uint) :
  urlencode (NilEmpty.string_of_uint d) = NilEmpty.string_of_uint d.
Proof.
  induction d as [|d IH|d IH|d IH|d IH|d IH|d IH|d IH|d IH|d IH|d IH];
    [reflexivity | ..];
    cbn [NilEmpty.string_of_uint]; rewrite urlencode_cons, IH; reflexivity.
Qed.

Lemma urlencode_string_of_Z (z : Z) : urlencode (string_of_Z z) = string_of_Z z.
Proof.
  unfold string_of_Z, NilZero.string_of_int, NilZero.string_of_uint.
  destruct (Z.to_int z) as [d|d]; destruct d;
    try reflexivity;
    try (rewrite urlencode_cons);
    try (apply urlencode_uint);
    rewrite urlencode_uint; reflexivity.
Qed.

Lemma toString_offset (s p : Z) :
  toString (new [("size", Num (Int s)); ("page", Num (Int p))]) = offset_query s p.
Proof.
  unfold toString, new, offset_query, join. cbn [map fst snd ToString String.concat].
  rewrite !urlencode_string_of_Z.
  change (urlencode "size") with "size". change (urlencode "page") with "page".
  string_norm. reflexivity.
Qed.

Lemma toString_cursor (s : Z) (b : string) :
  toString (new [("size", Num (Int s)); ("before", Str b)]) = cursor_query s b.
Proof.
  unfold toString, new, cursor_query, join. cbn [map fst snd ToString String.concat].
  rewrite !urlencode_string_of_Z.
  change (urlencode "size") with "size". change (urlencode "before") with "before".
  string_norm. reflexivity.
Qed.

Lemma urldecode_encode_byte (c : ascii) (rest : string) :
  urldecode (encode_byte c +:+ rest) = String c (urldecode rest).
Proof. destruct c as [[] [] [] [] [] [] [] []]; reflexivity. Qed.

(** Reading back an encoded value gives the value. *)
Lemma urldecode_urlencode (s : string) : urldecode (urlencode s) = s.
Proof.
  induction s as [|c s IH]; [reflexivity |].
  rewrite urlencode_cons, urldecode_encode_byte, IH. reflexivity.
Qed.

(** ** The relations of [getLinkHeader] *)

Ltac rel_name := unfold rel_names; repeat constructor.

(** Decide [has_rel n (relation t m)] for two of the four names. *)
Ltac has_rel_eval :=
  repeat match goal with
  | |- context [has_rel ?n (relation ?t ?m)] =>
      let b := eval vm_compute in (String.eqb n m) in
      rewrite (has_rel_relation n m t ltac:(rel_name) ltac:(rel_name));
      change (String.eqb n m) with b
  end.

Ltac has_rel_eval_in H :=
  repeat match type of H with
  | context [has_rel ?n (relation ?t ?m)] =>
      let b := eval vm_compute in (String.eqb n m) in
      rewrite (has_rel_relation n m t ltac:(rel_name) ltac:(rel_name)) in H;
      change (String.eqb n m) with b in H
  end.

(** Split the membership [H] of a list written out into its cases. *)
Ltac elem_cases H :=
  repeat (apply elem_of_cons in H as [-> | H]);
  try (now apply elem_of_nil in H).

Section LinkHeader.

Context {Item : Type} `{Created Item}.

(** The relations of the offset mode, whatever the size and the count. *)
Lemma getLinkRels_offset (url : string) (p : Z) (sz : option Z)
    (items : list Item) (count : option Z) :
  getLinkRels url {| before := None; page := Some p; size := sz |} items count =
  let pages := Math_ceil (div (ToNumber count) (ToNumber sz)) in
  Normal
    ((if lt p pages
      then [link url (new [("size", prop sz); ("page", Num (Int (p + 1)))]) "next"]
      else [])
     ++ [link url (new [("size", prop sz); ("page", Num pages)]) "last";
         link url (new [("size", prop sz); ("page", Num (Int 1))]) "first"]
     ++ (if gt p (Int 1)
         then [link url (new [("size", prop sz); ("page", Num (Int (p - 1)))]) "previous"]
         else []))%list.
Proof.
  unfold getLinkRels, push. cbn [before page size].
  destruct (lt p _), (gt p _); reflexivity.
Qed.

(** The same for a positive size and a count, with the ceiling named. *)
Lemma getLinkRels_offset_pos (url : string) (p s c k : Z) (items : list Item) :
  0 < s -> is_ceil c s k ->
  getLinkRels url {| before := None; page := Some p; size := Some s |} items (Some c) =
  Normal
    ((if p <? k then [relation (url +:+ "?" +:+ offset_query s (p + 1)) "next"] else [])
     ++ [relation (url +:+ "?" +:+ offset_query s k) "last";
         relation (url +:+ "?" +:+ offset_query s 1) "first"]
     ++ (if 1 <? p then [relation (url +:+ "?" +:+ offset_query s (p - 1)) "previous"]
         else []))%list.
Proof.
  intros Hs Hk. rewrite getLinkRels_offset. cbn [ToNumber prop].
  destruct (Math_ceil_div_pos c s Hs) as (k' & Hk' & Hc).
  rewrite (is_ceil_unique c s k k' Hs Hk Hc), Hk'. cbn [lt gt].
  rewrite !link_relation, !toString_offset. reflexivity.
Qed.

Lemma getLinkHeader_join (url : string) (pageRequest : PageRequest)
    (items : list Item) (count : option Z) (rels : list string) :
  getLinkRels url pageRequest items count = Normal rels ->
  getLinkHeader url pageRequest items count = Normal (join ", " rels).
Proof. intros Hr. unfold getLinkHeader. rewrite Hr. reflexivity. Qed.

(** A cursor page with fewer items than asked for has no relation. *)
Lemma getLinkRels_cursor_short (url b : string) (pg : option Z) (s : Z)
    (items : list Item) (count : option Z) :
  Z.of_nat (length items) < s ->
  getLinkRels url {| before := Some b; page := pg; size := Some s |} items count
    = Normal [].
Proof.
  intros Hlt. unfold getLinkRels. cbn [before size strict_eq_length].
  destruct (Z.eqb_spec (Z.of_nat (length items)) s); [lia | reflexivity].
Qed.

(** C1. In offset mode, with the page and a positive size set, and for
    every count, the number of pages is the ceiling of count / size; a
    relation named next is emitted exactly when the page is below that
    number, and it is the one for the same size and the page after. *)
Theorem offset_next_iff_page_lt_pages (url : string) (p s c : Z) (items : list Item) :
  0 < s ->
  exists pages rels,
    is_ceil c s pages /\
    getLinkRels url {| before := None; page := Some p; size := Some s |} items (Some c)
      = Normal rels /\
    getLinkHeader url {| before := None; page := Some p; size := Some s |} items (Some c)
      = Normal (join ", " rels) /\
    (emits "next" rels = true <-> p < pages) /\
    (p < pages -> relation (url +:+ "?" +:+ offset_query s (p + 1)) "next" ∈ rels) /\
    (forall r, r ∈ rels -> has_rel "next" r = true ->
               r = relation (url +:+ "?" +:+ offset_query s (p + 1)) "next").
Proof.
  intros Hs. destruct (Math_ceil_div_pos c s Hs) as (k & _ & Hk).
  pose proof (getLinkRels_offset_pos url p s c k items Hs Hk) as Hr.
  eexists k, _. split; [exact Hk |]. split; [exact Hr |].
  split; [apply getLinkHeader_join, Hr |].
  unfold emits.
  destruct (Z.ltb_spec p k) as [Hlt|Hge], (1 <? p);
    cbn [existsb app]; has_rel_eval; cbn [orb];
    (split; [split; [intros Ht; first [lia | discriminate Ht] | intros; first [reflexivity | lia]] |]);
    (split; [intros; first [lia | set_solver] |]);
    intros r Hin Hrel; elem_cases Hin; try reflexivity;
    has_rel_eval_in Hrel; discriminate Hrel.
Qed.

(** C3. In offset mode, with a positive size, a relation named last for
    the page that is the number of pages, and a relation named first for
    the page 1, are always emitted; for a count of zero the number of
    pages is zero and the last relation is emitted for the page 0. *)
Theorem offset_last_and_first_always (url : string) (p s c : Z) (items : list Item) :
  0 < s ->
  exists pages rels,
    is_ceil c s pages /\
    getLinkRels url {| before := None; page := Some p; size := Some s |} items (Some c)
      = Normal rels /\
    getLinkHeader url {| before := None; page := Some p; size := Some s |} items (Some c)
      = Normal (join ", " rels) /\
    relation (url +:+ "?" +:+ offset_query s pages) "last" ∈ rels /\
    relation (url +:+ "?" +:+ offset_query s 1) "first" ∈ rels /\
    emits "last" rels = true /\
    emits "first" rels = true /\
    (c = 0 ->
     pages = 0 /\
     relation (url +:+ "?size=" +:+ string_of_Z s +:+ "&page=0") "last" ∈ rels).
Proof.
  intros Hs. destruct (Math_ceil_div_pos c s Hs) as (k & _ & Hk).
  pose proof (getLinkRels_offset_pos url p s c k items Hs Hk) as Hr.
  eexists k, _. split; [exact Hk |]. split; [exact Hr |].
  split; [apply getLinkHeader_join, Hr |].
  unfold emits.
  destruct (p <? k), (1 <? p);
    cbn [existsb app]; has_rel_eval; cbn [orb];
    (split; [set_solver |]); (split; [set_solver |]);
    (split; [reflexivity |]); (split; [reflexivity |]);
    intros ->; rewrite (is_ceil_zero s k Hs Hk);
    (split; [reflexivity |]);
    change (url +:+ "?size=" +:+ string_of_Z s +:+ "&page=0")
      with (url +:+ "?" +:+ offset_query s 0);
    set_solver.
Qed.

(** C5. In offset mode, with a positive size: on the page that is the
    number of pages no relation named next is emitted; a relation named
    previous is emitted exactly when the page is above 1, and it is the one
    for the same size and the page before. *)
Theorem offset_last_page_and_previous (url : string) (p s c : Z) (items : list Item) :
  0 < s ->
  exists pages rels,
    is_ceil c s pages /\
    getLinkRels url {| before := None; page := Some p; size := Some s |} items (Some c)
      = Normal rels /\
    getLinkHeader url {| before := None; page := Some p; size := Some s |} items (Some c)
      = Normal (join ", " rels) /\
    (p = pages -> emits "next" rels = false) /\
    (emits "previous" rels = true <-> 1 < p) /\
    (1 < p -> relation (url +:+ "?" +:+ offset_query s (p - 1)) "previous" ∈ rels) /\
    (forall r, r ∈ rels -> has_rel "previous" r = true ->
               r = relation (url +:+ "?" +:+ offset_query s (p - 1)) "previous").
Proof.
  intros Hs. destruct (Math_ceil_div_pos c s Hs) as (k & _ & Hk).
  pose proof (getLinkRels_offset_pos url p s c k items Hs Hk) as Hr.
  eexists k, _. split; [exact Hk |]. split; [exact Hr |].
  split; [apply getLinkHeader_join, Hr |].
  unfold emits.
  destruct (Z.ltb_spec p k) as [Hlt|Hge], (Z.ltb_spec 1 p) as [Hp|Hp];
    cbn [existsb app]; has_rel_eval; cbn [orb];
    (split; [intros; first [lia | reflexivity] |]);
    (split; [split; [intros Ht; first [lia | discriminate Ht]
                    | intros; first [reflexivity | lia]] |]);
    (split; [intros; first [lia | set_solver] |]);
    intros r Hin Hrel; elem_cases Hin; try reflexivity;
    has_rel_eval_in Hrel; discriminate Hrel.
Qed.

Lemma append_nil_r (a : string) : a +:+ "" = a.
Proof. induction a as [|x a IH]; [reflexivity |]. now rewrite append_cons, IH. Qed.

Lemma urlencode_ToString_prop (sz : option Z) :
  urlencode (ToString (prop sz)) = ToString (prop sz).
Proof. destruct sz; [apply urlencode_string_of_Z | reflexivity]. Qed.

Lemma urlencode_ToString_Num (n : number) :
  urlencode (ToString (Num n)) = ToString (Num n).
Proof. destruct n; [apply urlencode_string_of_Z | reflexivity ..]. Qed.

Lemma toString_size_page (sz : option Z) (n : number) :
  toString (new [("size", prop sz); ("page", Num n)])
  = "size=" +:+ ToString (prop sz) +:+ "&page=" +:+ ToString (Num n).
Proof.
  unfold toString, new, join. cbn [map fst snd String.concat].
  rewrite urlencode_ToString_prop, urlencode_ToString_Num.
  change (urlencode "size") with "size". change (urlencode "page") with "page".
  string_norm. reflexivity.
Qed.

(** C9. In offset mode the relations are, in this order: the one named next
    for the page after, when there is one; the one named last; the one named
    first, for the page 1; the one named previous for the page before, when
    there is one. The header is these relations in that order, each joined
    to the one after it by a comma and a space. *)
Theorem offset_relations_order (url : string) (p : Z) (sz : option Z)
    (items : list Item) (count : option Z) :
  exists (pages : number) (nexts prevs : list string),
    let target := fun pg => url +:+ "?size=" +:+ ToString (prop sz) +:+ "&page=" +:+ pg in
    let rel_last := relation (target (ToString (Num pages))) "last" in
    let rel_first := relation (target "1") "first" in
    (nexts = [] \/ nexts = [relation (target (string_of_Z (p + 1))) "next"]) /\
    (prevs = [] \/ prevs = [relation (target (string_of_Z (p - 1))) "previous"]) /\
    getLinkRels url {| before := None; page := Some p; size := sz |} items count
      = Normal (nexts ++ [rel_last; rel_first] ++ prevs)%list /\
    getLinkHeader url {| before := None; page := Some p; size := sz |} items count
      = Normal (match nexts with
                | n :: _ => n +:+ ", "
                | [] => ""
                end
                +:+ rel_last +:+ ", " +:+ rel_first
                +:+ match prevs with
                    | q :: _ => ", " +:+ q
                    | [] => ""
                    end).
Proof.
  pose proof (getLinkRels_offset url p sz items count) as Hr. cbv zeta in Hr.
  rewrite !link_relation, !toString_size_page in Hr.
  exists (Math_ceil (div (ToNumber count) (ToNumber sz))).
  exists (if lt p (Math_ceil (div (ToNumber count) (ToNumber sz)))
          then [relation (url +:+ "?size=" +:+ ToString (prop sz) +:+ "&page="
                          +:+ string_of_Z (p + 1)) "next"]
          else []).
  exists (if gt p (Int 1)
          then [relation (url +:+ "?size=" +:+ ToString (prop sz) +:+ "&page="
                          +:+ string_of_Z (p - 1)) "previous"]
          else []).
  cbv zeta.
  split; [destruct (lt p _); [now right | now left] |].
  split; [destruct (gt p _); [now right | now left] |].
  split; [exact Hr |].
  rewrite (getLinkHeader_join _ _ _ _ _ Hr). f_equal.
  destruct (lt p _), (gt p _); cbn [app join String.concat];
    rewrite ?append_nil_r, ?append_nil_l, ?append_assoc; reflexivity.
Qed.

(** The four shapes of the joined header. *)
Lemma join_shapes (n l f q : string) :
  join ", " [l; f] = l +:+ ", " +:+ f /\
  join ", " [n; l; f] = n +:+ ", " +:+ l +:+ ", " +:+ f /\
  join ", " [l; f; q] = l +:+ ", " +:+ f +:+ ", " +:+ q /\
  join ", " [n; l; f; q] = n +:+ ", " +:+ l +:+ ", " +:+ f +:+ ", " +:+ q.
Proof. repeat split. Qed.

(** C2. In cursor mode, when the items are as many as the positive size
    asked for, exactly one relation is emitted: it is named next, its
    query has the same size, and its before parameter is the created value
    of the last item, which a reader of the query gets back as it was. *)
Theorem cursor_full_page_next (url b : string) (pg : option Z) (s : Z)
    (items : list Item) (count : option Z) :
  0 < s ->
  Z.of_nat (length items) = s ->
  exists oldest,
    last items = Some oldest /\
    getLinkRels url {| before := Some b; page := pg; size := Some s |} items count
      = Normal [relation (url +:+ "?" +:+ cursor_query s (created oldest)) "next"] /\
    getLinkHeader url {| before := Some b; page := pg; size := Some s |} items count
      = Normal (relation (url +:+ "?size=" +:+ string_of_Z s +:+ "&before="
                          +:+ urlencode (created oldest)) "next") /\
    has_rel "next" (relation (url +:+ "?" +:+ cursor_query s (created oldest)) "next")
      = true /\
    urldecode (urlencode (created oldest)) = created oldest.
Proof.
  intros Hs Hlen.
  destruct (last items) as [oldest|] eqn:Hlast.
  2: { apply last_None in Hlast. subst items. simpl in Hlen. lia. }
  assert (Hr : getLinkRels url {| before := Some b; page := pg; size := Some s |}
                 items count
               = Normal [relation (url +:+ "?" +:+ cursor_query s (created oldest)) "next"]).
  { unfold getLinkRels, push. cbn [before size strict_eq_length].
    rewrite (proj2 (Z.eqb_eq _ _) Hlen), Hlast. cbn [prop app].
    rewrite link_relation, toString_cursor. reflexivity. }
  exists oldest. split; [reflexivity |]. split; [exact Hr |].
  split.
  - rewrite (getLinkHeader_join _ _ _ _ _ Hr). unfold cursor_query.
    cbn [join String.concat]. string_norm. reflexivity.
  - split; [now has_rel_eval | apply urldecode_urlencode].
Qed.

(** C4. In cursor mode no relation named previous, first or last is ever
    emitted; and when the items are fewer than the size asked for, no
    relation is emitted at all, so none named next. *)
Theorem cursor_short_page_no_relation (url b : string) (pg : option Z) (s : Z)
    (items : list Item) (count : option Z) :
  (forall sz rels,
     getLinkRels url {| before := Some b; page := pg; size := sz |} items count
       = Normal rels ->
     emits "previous" rels = false /\ emits "first" rels = false /\
     emits "last" rels = false) /\
  (Z.of_nat (length items) < s ->
   getLinkRels url {| before := Some b; page := pg; size := Some s |} items count
     = Normal [] /\
   getLinkHeader url {| before := Some b; page := pg; size := Some s |} items count
     = Normal "").
Proof.
  split.
  - intros sz rels. unfold getLinkRels, push. cbn [before size].
    destruct (strict_eq_length _ _); [| intros [= <-]; now repeat split].
    destruct (last items) as [oldest|]; [| discriminate].
    intros [= <-]. rewrite link_relation. unfold emits. cbn [existsb app].
    has_rel_eval. now repeat split.
  - intros Hlt.
    pose proof (getLinkRels_cursor_short url b pg s items count Hlt) as Hr.
    split; [exact Hr |]. now rewrite (getLinkHeader_join _ _ _ _ _ Hr).
Qed.

(** C7. A page request with neither a before nor a page property makes
    getLinkHeader throw the error of an unknown page request type, whatever
    the size, the items and the count: the result is never a header. *)
Theorem unknown_page_request_throws (url : string) (sz : option Z)
    (items : list Item) (count : option Z) :
  getLinkHeader url {| before := None; page := None; size := sz |} items count
    = Throw (New_Error "unknown page request type").
Proof. reflexivity. Qed.

End LinkHeader.

(** ** The header at sample inputs *)

Example header_first_page_of_three :
  getLinkHeader "/user/uploads" Sample.offset ([] : list Item) (Some 5)
  = Normal (relation "/user/uploads?size=2&page=2" "next" +:+ ", "
            +:+ relation "/user/uploads?size=2&page=3" "last" +:+ ", "
            +:+ relation "/user/uploads?size=2&page=1" "first").
Proof. reflexivity. Qed.

Example header_no_item :
  getLinkHeader "/user/uploads" Sample.offset ([] : list Item) (Some 0)
  = Normal (relation "/user/uploads?size=2&page=0" "last" +:+ ", "
            +:+ relation "/user/uploads?size=2&page=1" "first").
Proof. reflexivity. Qed.

Example header_cursor_full_page :
  getLinkHeader "/user/uploads" Sample.cursor
    [Sample.item "2022-02-02T10:00:00.000Z"; Sample.item "2022-02-01T10:00:00+00:00"] None
  = Normal (relation "/user/uploads?size=2&before=2022-02-01T10%3A00%3A00%2B00%3A00" "next").
Proof. reflexivity. Qed.

(** Outside the page requests of the parser: without a size the quotient is
    NaN, with a size of zero it is not finite, and a cursor request for no
    item answered with no item reads the created property of no object. *)
Example header_without_size :
  getLinkHeader "/user/uploads" {| before := None; page := Some 1; size := None |}
    ([] : list Item) (Some 5)
  = Normal (relation "/user/uploads?size=undefined&page=NaN" "last" +:+ ", "
            +:+ relation "/user/uploads?size=undefined&page=1" "first").
Proof. reflexivity. Qed.

Example header_size_zero :
  getLinkHeader "/user/uploads" {| before := None; page := Some 1; size := Some 0 |}
    ([] : list Item) (Some 5)
  = Normal (relation "/user/uploads?size=0&page=2" "next" +:+ ", "
            +:+ relation "/user/uploads?size=0&page=Infinity" "last" +:+ ", "
            +:+ relation "/user/uploads?size=0&page=1" "first").
Proof. reflexivity. Qed.

Example header_cursor_size_zero :
  getLinkHeader "/user/uploads" {| before := Some "T"; page := None; size := Some 0 |}
    ([] : list Item) None
  = Throw New_TypeError.
Proof. reflexivity. Qed.

(** ** The responses of the handlers *)

Section Responses.

Context {Upload PinRequest PinStatus PsaData : Type}.
Context `{Created Upload} `{Created PinRequest}.

Variable pagination : list (string * string) -> completion ErrorObject PageRequest.
Variable validateSearchParams : gmap string string -> PsaParams PsaData.
Variable toPinStatusResponse : PinRequest -> PinStatus.

Abbreviation Env := (@Env Upload PinRequest PsaData).

(** The response of [userUploadsGet] once the parser, the data layer and
    [getLinkHeader] have returned. *)
Lemma userUploadsGet_normal (request : Request) (env : Env) (pr : PageRequest)
    (data : Uploads.t Upload) (link : string) :
  pagination (searchParams request) = Normal pr ->
  listUploads (db env) (user_id request) pr = Normal data ->
  getLinkHeader (pathname request) pr (Uploads.uploads data) (Uploads.count data)
    = Normal link ->
  exists resp,
    userUploadsGet pagination request env = Normal resp /\
    body resp = Uploads.uploads data /\
    headers resp !! "Count" = Some (prop (Uploads.count data)) /\
    headers resp !! "Link" = (if truthy link then Some (Str link) else None).
Proof.
  intros Hp Hl Hlink. unfold userUploadsGet.
  rewrite Hp. cbn [await Js.bind]. rewrite Hl. cbn [Js.bind]. rewrite Hlink.
  cbn [Js.bind]. eexists. split; [reflexivity |]. cbn [body headers].
  split; [reflexivity |].
  destruct (size pr), (page pr), (truthy link);
    split; simplify_map_eq; reflexivity.
Qed.

(** C6, as the code has it. Once the parser, the data layer and
    getLinkHeader have returned, the headers of the response of
    userUploadsGet always have a Count entry, whose value is the count of
    the data layer: that number when there is one, and undefined when the
    data layer gave none. *)
Theorem count_header_always_set (request : Request) (env : Env) (pr : PageRequest)
    (data : Uploads.t Upload) (link : string) :
  pagination (searchParams request) = Normal pr ->
  listUploads (db env) (user_id request) pr = Normal data ->
  getLinkHeader (pathname request) pr (Uploads.uploads data) (Uploads.count data)
    = Normal link ->
  exists resp,
    userUploadsGet pagination request env = Normal resp /\
    (forall c, Uploads.count data = Some c ->
               headers resp !! "Count" = Some (Num (Int c))) /\
    (Uploads.count data = None -> headers resp !! "Count" = Some undefined).
Proof.
  intros Hp Hl Hlink.
  destruct (userUploadsGet_normal request env pr data link Hp Hl Hlink)
    as (resp & Hresp & _ & Hcount & _).
  exists resp. split; [exact Hresp |].
  split; [intros c Hc | intros Hc]; rewrite Hcount, Hc; reflexivity.
Qed.

(** C8. When the list call of the data layer fails, userUploadsGet and
    userPinsGet return no page: they throw a RangeNotSatisfiableError of
    their own if the code of the error is RANGE_NOT_SATISFIABLE_ERROR_DB,
    and throw the error again, as it is, for any other error. *)
Theorem list_error_translated (request : Request) (env : Env) (pr : PageRequest)
    (err : ErrorObject) :
  pagination (searchParams request) = Normal pr ->
  (listUploads (db env) (user_id request) pr = Throw err ->
   (code err = Some "RANGE_NOT_SATISFIABLE_ERROR_DB" ->
    userUploadsGet pagination request env = Throw New_RangeNotSatisfiableError) /\
   (code err <> Some "RANGE_NOT_SATISFIABLE_ERROR_DB" ->
    userUploadsGet pagination request env = Throw (Raised err))) /\
  (forall keys,
     let psaParams := validateSearchParams (Object_fromEntries (searchParams request)) in
     error psaParams = None ->
     listKeys (db env) (user_id request) = Normal keys ->
     listPsaPinRequests (db env) (map _id keys)
       {| psa_data := data psaParams;
          limit := prop (size pr);
          offset := mul (ToNumber (size pr)) (sub (ToNumber (page pr)) 1) |}
       = Throw err ->
     (code err = Some "RANGE_NOT_SATISFIABLE_ERROR_DB" ->
      userPinsGet pagination validateSearchParams toPinStatusResponse request env
        = Throw New_RangeNotSatisfiableError) /\
     (code err <> Some "RANGE_NOT_SATISFIABLE_ERROR_DB" ->
      userPinsGet pagination validateSearchParams toPinStatusResponse request env
        = Throw (Raised err))).
Proof.
  intros Hp. split.
  - intros Hl. unfold userUploadsGet. rewrite Hp. cbn [await Js.bind]. rewrite Hl.
    split; intros Hc; case_bool_decide; try contradiction; reflexivity.
  - intros keys psaParams He Hk Hl. unfold userPinsGet. rewrite Hp. cbn [await Js.bind].
    fold psaParams. rewrite He, Hk. cbn [await Js.bind]. rewrite Hl.
    split; intros Hc; case_bool_decide; try contradiction; reflexivity.
Qed.

(** C10. Once the parser, the data layer and getLinkHeader have returned,
    the response of userUploadsGet has a Link header exactly when the
    string of getLinkHeader is not empty, and the header is that string;
    so a cursor page with fewer items than the size asked for has no Link
    header. *)
Theorem link_header_iff_nonempty (request : Request) (env : Env) (pr : PageRequest)
    (data : Uploads.t Upload) :
  pagination (searchParams request) = Normal pr ->
  listUploads (db env) (user_id request) pr = Normal data ->
  (forall link,
     getLinkHeader (pathname request) pr (Uploads.uploads data) (Uploads.count data)
       = Normal link ->
     exists resp,
       userUploadsGet pagination request env = Normal resp /\
       (is_Some (headers resp !! "Link") <-> link <> "") /\
       (link <> "" -> headers resp !! "Link" = Some (Str link))) /\
  (forall b pg s,
     pr = {| before := Some b; page := pg; size := Some s |} ->
     Z.of_nat (length (Uploads.uploads data)) < s ->
     exists resp,
       userUploadsGet pagination request env = Normal resp /\
       headers resp !! "Link" = None).
Proof.
  intros Hp Hl. split.
  - intros link Hlink.
    destruct (userUploadsGet_normal request env pr data link Hp Hl Hlink)
      as (resp & Hresp & _ & _ & Hh).
    exists resp. split; [exact Hresp |]. rewrite Hh.
    destruct link as [|c link]; cbn [truthy].
    + split; [split; [intros [v Hv]; discriminate Hv | congruence] | congruence].
    + split; [split; [discriminate | eauto] | reflexivity].
  - intros b pg s -> Hlt.
    pose proof (getLinkRels_cursor_short (pathname request) b pg s
                  (Uploads.uploads data) (Uploads.count data) Hlt) as Hr.
    apply getLinkHeader_join in Hr.
    destruct (userUploadsGet_normal request env _ data _ Hp Hl Hr)
      as (resp & Hresp & _ & _ & Hh).
    exists resp. split; [exact Hresp | exact Hh].
Qed.

End Responses.

(** ** The properties at sample inputs *)

(** Two items per page, first page, five items: three pages, and a next
    relation. *)
Lemma offset_next_iff_page_lt_pages_witness :
  0 < 2 /\
  exists pages rels,
    is_ceil 5 2 pages /\
    getLinkRels "/user/uploads" Sample.offset ([] : list Item) (Some 5) = Normal rels /\
    (emits "next" rels = true <-> 1 < pages).
Proof.
  split; [lia |].
  destruct (offset_next_iff_page_lt_pages "/user/uploads" 1 2 5 ([] : list Item))
    as (pages & rels & Hc & Hr & _ & Hn & _); [lia |].
  exists pages, rels. split; [exact Hc |]. split; [exact Hr | exact Hn].
Defined.

(** Three items asked for and three returned: the next relation starts
    before the last of them. *)
Lemma cursor_full_page_next_witness :
  0 < 3 /\
  exists oldest,
    last [Sample.item "T3"; Sample.item "T2"; Sample.item "T1"] = Some oldest /\
    getLinkHeader "/user/uploads" {| before := Some "T4"; page := None; size := Some 3 |}
      [Sample.item "T3"; Sample.item "T2"; Sample.item "T1"] None
    = Normal (relation ("/user/uploads" +:+ "?size=" +:+ string_of_Z 3 +:+ "&before="
                        +:+ urlencode (created oldest)) "next").
Proof.
  split; [lia |].
  destruct (cursor_full_page_next "/user/uploads" "T4" None 3
              [Sample.item "T3"; Sample.item "T2"; Sample.item "T1"] None)
    as (oldest & Hl & _ & Hh & _); [lia | reflexivity |].
  exists oldest. split; [exact Hl | exact Hh].
Defined.

(** No item at all: no page, and a last relation for the page 0. *)
Lemma offset_last_and_first_always_witness :
  0 < 2 /\
  exists rels,
    getLinkRels "/user/uploads" Sample.offset ([] : list Item) (Some 0) = Normal rels /\
    relation ("/user/uploads" +:+ "?size=" +:+ string_of_Z 2 +:+ "&page=0") "last" ∈ rels.
Proof.
  split; [lia |].
  destruct (offset_last_and_first_always "/user/uploads" 1 2 0 ([] : list Item))
    as (pages & rels & _ & Hr & _ & _ & _ & _ & _ & Hz); [lia |].
  exists rels. split; [exact Hr |]. apply Hz. reflexivity.
Defined.

(** Three items asked for and two returned: no relation. *)
Lemma cursor_short_page_no_relation_witness :
  Z.of_nat (length [Sample.item "T2"; Sample.item "T1"]) < 3 /\
  getLinkHeader "/user/uploads" {| before := Some "T3"; page := None; size := Some 3 |}
    [Sample.item "T2"; Sample.item "T1"] None = Normal "".
Proof.
  split; [simpl; lia |].
  apply (cursor_short_page_no_relation "/user/uploads" "T3" None 3
           [Sample.item "T2"; Sample.item "T1"] None).
  simpl; lia.
Defined.

(** Third page of three: a previous relation and no next one. *)
Lemma offset_last_page_and_previous_witness :
  0 < 2 /\
  exists rels,
    getLinkRels "/user/uploads" {| before := None; page := Some 3; size := Some 2 |}
      ([] : list Item) (Some 5) = Normal rels /\
    emits "next" rels = false /\
    emits "previous" rels = true.
Proof.
  split; [lia |].
  destruct (offset_last_page_and_previous "/user/uploads" 3 2 5 ([] : list Item))
    as (pages & rels & Hc & Hr & _ & Hn & Hp & _); [lia |].
  exists rels. split; [exact Hr |]. split.
  - apply Hn. unfold is_ceil in Hc. lia.
  - apply Hp. lia.
Defined.

(** A cursor request answered with a count of one. *)
Lemma count_header_always_set_witness :
  exists resp,
    userUploadsGet Sample.pagination_cursor Sample.request
      {| db := Sample.db_with_count (Some 1) |} = Normal resp /\
    headers resp !! "Count" = Some (Num (Int 1)).
Proof.
  destruct (count_header_always_set Sample.pagination_cursor Sample.request
              {| db := Sample.db_with_count (Some 1) |} Sample.cursor
              {| Uploads.uploads := [Sample.item "2022-02-01T10:00:00.000Z"];
                 Uploads.count := Some 1 |} "")
    as (resp & Hr & Hc & _); [reflexivity | reflexivity | reflexivity |].
  exists resp. split; [exact Hr |]. apply Hc. reflexivity.
Defined.

(** The same request answered without a count: the Count entry is there,
    and holds undefined. *)
Lemma count_header_not_omitted :
  Uploads.count
    {| Uploads.uploads := [Sample.item "2022-02-01T10:00:00.000Z"];
       Uploads.count := None |} = None /\
  exists resp,
    userUploadsGet Sample.pagination_cursor Sample.request
      {| db := Sample.db_with_count None |} = Normal resp /\
    headers resp !! "Count" = Some undefined /\
    headers resp !! "Count" <> None.
Proof.
  split; [reflexivity |].
  eexists. split; [reflexivity |]. cbn [headers].
  split; [| intros Hn]; simplify_map_eq; reflexivity.
Qed.

(** A data layer that fails with the range code, and one that fails with
    another code. *)
Lemma list_error_translated_witness :
  userUploadsGet Sample.pagination_cursor Sample.request
    {| db := Sample.failing_db Sample.range_error |}
  = Throw New_RangeNotSatisfiableError /\
  userPinsGet Sample.pagination_cursor Sample.validate Sample.toPinStatusResponse
    Sample.request {| db := Sample.failing_db Sample.range_error |}
  = Throw New_RangeNotSatisfiableError /\
  userUploadsGet Sample.pagination_cursor Sample.request
    {| db := Sample.failing_db Sample.other_error |}
  = Throw (Raised Sample.other_error).
Proof.
  destruct (list_error_translated Sample.pagination_cursor Sample.validate
              Sample.toPinStatusResponse Sample.request
              {| db := Sample.failing_db Sample.range_error |} Sample.cursor
              Sample.range_error eq_refl) as [Hu Hp].
  destruct (list_error_translated Sample.pagination_cursor Sample.validate
              Sample.toPinStatusResponse Sample.request
              {| db := Sample.failing_db Sample.other_error |} Sample.cursor
              Sample.other_error eq_refl) as [Hu' _].
  split; [apply Hu; reflexivity |].
  split; [apply (Hp [{| _id := "7"; name := "key" |}]); reflexivity |].
  apply Hu'; [reflexivity | discriminate].
Defined.

(** A cursor request for two items answered with one: no Link header. *)
Lemma link_header_iff_nonempty_witness :
  exists resp,
    userUploadsGet Sample.pagination_cursor Sample.request
      {| db := Sample.db_with_count None |} = Normal resp /\
    headers resp !! "Link" = None.
Proof.
  destruct (link_header_iff_nonempty Sample.pagination_cursor Sample.request
              {| db := Sample.db_with_count None |} Sample.cursor
              {| Uploads.uploads := [Sample.item "2022-02-01T10:00:00.000Z"];
                 Uploads.count := None |} eq_refl eq_refl) as [_ Hshort].
  apply (Hshort "2022-03-01T10:00:00.000Z" None 2); [reflexivity | simpl; lia].
Defined.

(** ** Further properties of [getLinkHeader] *)

Lemma truthy_append (a b : string) : truthy a = true -> truthy (a +:+ b) = true.
Proof. destruct a; [discriminate | reflexivity]. Qed.

Lemma truthy_link (url : string) (params : URLSearchParams.t) (name : string) :
  truthy (link url params name) = true.
Proof. reflexivity. Qed.

Lemma truthy_join_cons (sep x : string) (rest : list string) :
  truthy x = true -> truthy (join sep (x :: rest)) = true.
Proof.
  intros Hx. unfold join. destruct rest; cbn [String.concat]; [exact Hx |].
  now apply truthy_append.
Qed.

Lemma truthy_ne (s : string) : truthy s = true <-> s <> "".
Proof. destruct s; cbn; split; congruence. Qed.

Section LinkHeaderEdges.

Context {Item : Type} `{Created Item}.

(** X1. In offset mode getLinkHeader always returns, whatever the size and the
    count, even absent: it emits two to four relations and its header is
    never the empty string. *)
Theorem offset_header_never_empty (url : string) (p : Z) (sz : option Z)
    (items : list Item) (count : option Z) :
  exists rels,
    getLinkRels url {| before := None; page := Some p; size := sz |} items count
      = Normal rels /\
    (2 <= length rels <= 4)%nat /\
    getLinkHeader url {| before := None; page := Some p; size := sz |} items count
      = Normal (join ", " rels) /\
    truthy (join ", " rels) = true.
Proof.
  pose proof (getLinkRels_offset url p sz items count) as Hr. cbv zeta in Hr.
  eexists. split; [exact Hr |].
  split; [| split; [apply getLinkHeader_join, Hr |]].
  - destruct (lt p _), (gt p _); cbn [length app]; lia.
  - destruct (lt p _); cbn [app]; apply truthy_join_cons, truthy_link.
Qed.

(** X2. In cursor mode getLinkHeader throws exactly when the size is zero and
    there is no item; in every other case it returns at most one relation,
    and one named next exactly when the items are as many as the size. *)
Theorem cursor_throws_iff_size_zero_no_item (url b : string) (pg sz : option Z)
    (items : list Item) (count : option Z) :
  (getLinkRels url {| before := Some b; page := pg; size := sz |} items count
     = Throw New_TypeError <-> sz = Some 0 /\ items = []) /\
  (~ (sz = Some 0 /\ items = []) ->
   exists rels,
     getLinkRels url {| before := Some b; page := pg; size := sz |} items count
       = Normal rels /\
     (length rels <= 1)%nat /\
     (emits "next" rels = true <-> sz = Some (Z.of_nat (length items)))).
Proof.
  unfold getLinkRels, push. cbn [before size].
  destruct sz as [s|]; cbn [strict_eq_length].
  2: { split; [split; [discriminate | intros [[=] _]] |].
       intros _. exists []. repeat split; cbn; try lia; discriminate. }
  destruct (Z.eqb_spec (Z.of_nat (length items)) s) as [Heq|Hne].
  - destruct (last items) as [oldest|] eqn:Hlast.
    + assert (items <> []) by (intros ->; discriminate Hlast).
      split; [split; [discriminate | intros [_ ?]; contradiction] |].
      intros _. eexists. split; [reflexivity |]. split; [cbn; lia |].
      unfold emits. cbn [existsb app]. rewrite link_relation. has_rel_eval.
      split; [intros _; now rewrite Heq | reflexivity].
    + apply last_None in Hlast. subst items. cbn in Heq. subst s.
      split; [split; [intros _; now split | reflexivity] |].
      intros Hn. exfalso. apply Hn. now split.
  - split; [split; [discriminate | intros [[= ->] ->]; now cbn in Hne] |].
    intros _. exists []. split; [reflexivity |]. split; [cbn; lia |].
    split; [discriminate | intros [= ->]; contradiction].
Qed.

(** X3. When all the items fit on the first page, the header has two relations,
    last and first, for the same page 1. *)
Theorem offset_single_page_header (url : string) (s c : Z) (items : list Item) :
  0 < c <= s ->
  getLinkHeader url {| before := None; page := Some 1; size := Some s |} items (Some c)
  = Normal (relation (url +:+ "?" +:+ offset_query s 1) "last" +:+ ", "
            +:+ relation (url +:+ "?" +:+ offset_query s 1) "first").
Proof.
  intros Hc. assert (Hs : 0 < s) by lia.
  assert (Hk : is_ceil c s 1) by (unfold is_ceil; lia).
  rewrite (getLinkHeader_join _ _ _ _ _ (getLinkRels_offset_pos url 1 s c 1 items Hs Hk)).
  reflexivity.
Qed.

(** X4. A size of zero with a positive count makes every page name a next page;
    without a size no page names one. *)
Theorem offset_degenerate_size (url : string) (p c : Z) (items : list Item) :
  (0 < c ->
   exists rels,
     getLinkRels url {| before := None; page := Some p; size := Some 0 |} items (Some c)
       = Normal rels /\
     relation (url +:+ "?" +:+ offset_query 0 (p + 1)) "next" ∈ rels) /\
  (exists rels,
     getLinkRels url {| before := None; page := Some p; size := None |} items (Some c)
       = Normal rels /\
     emits "next" rels = false).
Proof.
  split.
  - intros Hc. rewrite getLinkRels_offset. cbn [ToNumber div Math_ceil prop].
    cbn [Z.eqb]. destruct (Z.ltb_spec 0 c); [| lia]. cbn [Math_ceil lt].
    eexists. split; [reflexivity |]. rewrite !link_relation, toString_offset.
    set_solver.
  - rewrite getLinkRels_offset. cbn [ToNumber div Math_ceil prop lt].
    eexists. split; [reflexivity |]. rewrite !link_relation. unfold emits.
    destruct (gt p _); cbn [existsb app]; has_rel_eval; reflexivity.
Qed.

End LinkHeaderEdges.

Lemma forallb_contains (P : ascii -> bool) (c : ascii) (s : string) :
  forallb P (list_ascii_of_string s) = true -> P c = false -> contains c s = false.
Proof.
  intros Hs Hc. induction s as [|d s IH]; [reflexivity |].
  cbn in Hs. apply andb_prop in Hs as [Hd Hs]. cbn [contains].
  rewrite (IH Hs), orb_false_r.
  destruct (Ascii.eqb_spec d c) as [->|]; [congruence | reflexivity].
Qed.

Lemma urlencode_bytes (s : string) :
  forallb encoded_byte (list_ascii_of_string (urlencode s)) = true.
Proof.
  induction s as [|c s IH]; [reflexivity |].
  rewrite urlencode_cons, list_ascii_of_string_app, forallb_app, IH, andb_true_r.
  destruct c as [[] [] [] [] [] [] [] []]; reflexivity.
Qed.

(** X5. A value serialised for a query is made of letters, digits and the
    marks [*], [-], [.], [_], [+] and [%] only: whatever the value, its
    serialisation has no angle bracket, comma, semicolon, ampersand, equals
    sign, space or double quote. *)
Theorem urlencode_output_safe (s : string) :
  forallb encoded_byte (list_ascii_of_string (urlencode s)) = true /\
  contains "<" (urlencode s) = false /\
  contains ">" (urlencode s) = false /\
  contains "," (urlencode s) = false /\
  contains ";" (urlencode s) = false /\
  contains "&" (urlencode s) = false /\
  contains "=" (urlencode s) = false /\
  contains " " (urlencode s) = false /\
  contains "034" (urlencode s) = false.
Proof.
  pose proof (urlencode_bytes s) as Hb.
  split; [exact Hb |].
  repeat split; apply (forallb_contains encoded_byte _ _ Hb); reflexivity.
Qed.

(** ** Further properties of the responses *)

Section ResponseHeaders.

Context {Upload PinRequest PinStatus PsaData : Type}.
Context `{Created Upload} `{Created PinRequest}.

Variable pagination : list (string * string) -> completion ErrorObject PageRequest.
Variable validateSearchParams : gmap string string -> PsaParams PsaData.
Variable toPinStatusResponse : PinRequest -> PinStatus.

Abbreviation Env' := (@Env Upload PinRequest PsaData).

(** The headers both handlers build from a page request, a count and the
    string of [getLinkHeader]. *)
Lemma headers_lookup (pr : PageRequest) (count : option Z) (link : string) :
  let headers : gmap string value :=
    let headers : gmap string value := {[ "Count" := prop count ]} in
    let headers :=
      match size pr with
      | Some size => <[ "Size" := Num (Int size) ]> headers
      | None => headers
      end in
    let headers :=
      match page pr with
      | Some page => <[ "Page" := Num (Int page) ]> headers
      | None => headers
      end in
    if truthy link then <[ "Link" := Str link ]> headers else headers in
  headers !! "Count" = Some (prop count) /\
  headers !! "Size" = (fun s => Num (Int s)) <$> size pr /\
  headers !! "Page" = (fun p => Num (Int p)) <$> page pr /\
  headers !! "Link" = (if truthy link then Some (Str link) else None) /\
  forall k, is_Some (headers !! k) -> k ∈ ["Count"; "Size"; "Page"; "Link"].
Proof.
  cbv zeta.
  destruct (size pr), (page pr), (truthy link); cbn [fmap option_fmap option_map];
    (repeat split; [simplify_map_eq; reflexivity .. |]);
    intros k [v Hv];
    repeat (rewrite lookup_insert in Hv; case_decide; [subst k; set_solver |]);
    apply lookup_singleton_Some in Hv as [<- _]; set_solver.
Qed.

Lemma userPinsGet_normal (request : Request) (env : Env') (pr : PageRequest)
    (keys : list Key) (pinRequests : PinRequests.t PinRequest) (link : string) :
  let psaParams := validateSearchParams (Object_fromEntries (searchParams request)) in
  pagination (searchParams request) = Normal pr ->
  error psaParams = None ->
  listKeys (db env) (user_id request) = Normal keys ->
  listPsaPinRequests (db env) (map _id keys)
    {| psa_data := data psaParams;
       limit := prop (size pr);
       offset := mul (ToNumber (size pr)) (sub (ToNumber (page pr)) 1) |}
    = Normal pinRequests ->
  getLinkHeader (pathname request) pr (PinRequests.results pinRequests)
    (PinRequests.count pinRequests) = Normal link ->
  userPinsGet pagination validateSearchParams toPinStatusResponse request env
  = Normal
      {| body := {| body_count := PinRequests.count pinRequests;
                    body_results := map toPinStatusResponse (PinRequests.results pinRequests) |};
         headers :=
           let headers : gmap string value :=
             {[ "Count" := prop (PinRequests.count pinRequests) ]} in
           let headers :=
             match size pr with
             | Some size => <[ "Size" := Num (Int size) ]> headers
             | None => headers
             end in
           let headers :=
             match page pr with
             | Some page => <[ "Page" := Num (Int page) ]> headers
             | None => headers
             end in
           if truthy link then <[ "Link" := Str link ]> headers else headers |}.
Proof.
  intros psaParams Hp He Hk Hl Hlink. unfold userPinsGet.
  rewrite Hp. cbn [await Js.bind]. fold psaParams. rewrite He, Hk.
  cbn [await Js.bind]. rewrite Hl. cbn [Js.bind]. rewrite Hlink. reflexivity.
Qed.

Lemma userUploadsGet_normal_eq (request : Request) (env : Env') (pr : PageRequest)
    (data : Uploads.t Upload) (link : string) :
  pagination (searchParams request) = Normal pr ->
  listUploads (db env) (user_id request) pr = Normal data ->
  getLinkHeader (pathname request) pr (Uploads.uploads data) (Uploads.count data)
    = Normal link ->
  userUploadsGet pagination request env
  = Normal
      {| body := Uploads.uploads data;
         headers :=
           let headers : gmap string value := {[ "Count" := prop (Uploads.count data) ]} in
           let headers :=
             match size pr with
             | Some size => <[ "Size" := Num (Int size) ]> headers
             | None => headers
             end in
           let headers :=
             match page pr with
             | Some page => <[ "Page" := Num (Int page) ]> headers
             | None => headers
             end in
           if truthy link then <[ "Link" := Str link ]> headers else headers |}.
Proof.
  intros Hp Hl Hlink. unfold userUploadsGet.
  rewrite Hp. cbn [await Js.bind]. rewrite Hl. cbn [Js.bind]. rewrite Hlink. reflexivity.
Qed.

Lemma getLinkHeader_offset_truthy {Item} `{Created Item} (url : string) (p : Z)
    (sz : option Z) (items : list Item) (count : option Z) :
  exists link,
    getLinkHeader url {| before := None; page := Some p; size := sz |} items count
      = Normal link /\ truthy link = true.
Proof.
  pose proof (getLinkRels_offset url p sz items count) as Hr. cbv zeta in Hr.
  eexists. split; [apply getLinkHeader_join, Hr |].
  destruct (lt p _); cbn [app]; apply truthy_join_cons, truthy_link.
Qed.

(** X6. The response of userUploadsGet carries the uploads of the data layer as
    its body, a Size header exactly when the page request has a size, a Page
    header exactly when it has a page, and no header besides Count, Size,
    Page and Link. *)
Theorem uploads_response_headers (request : Request) (env : Env') (pr : PageRequest)
    (data : Uploads.t Upload) (link : string) :
  pagination (searchParams request) = Normal pr ->
  listUploads (db env) (user_id request) pr = Normal data ->
  getLinkHeader (pathname request) pr (Uploads.uploads data) (Uploads.count data)
    = Normal link ->
  exists resp,
    userUploadsGet pagination request env = Normal resp /\
    body resp = Uploads.uploads data /\
    headers resp !! "Size" = (fun s => Num (Int s)) <$> size pr /\
    headers resp !! "Page" = (fun p => Num (Int p)) <$> page pr /\
    (forall k, is_Some (headers resp !! k) -> k ∈ ["Count"; "Size"; "Page"; "Link"]).
Proof.
  intros Hp Hl Hlink.
  eexists. split; [apply (userUploadsGet_normal_eq request env pr data link Hp Hl Hlink) |].
  cbn [body headers].
  pose proof (headers_lookup pr (Uploads.count data) link) as Hh. cbv zeta in Hh.
  destruct Hh as (_ & Hs & Hpg & _ & Hdom).
  split; [reflexivity |]. split; [exact Hs |]. split; [exact Hpg | exact Hdom].
Qed.

(** X7. For an offset request userUploadsGet returns whenever the data layer
    does, and its response always has a Link header, not empty, and the Page
    header of the request. *)
Theorem offset_response_always_has_link (request : Request) (env : Env') (p : Z)
    (sz : option Z) (data : Uploads.t Upload) :
  pagination (searchParams request)
    = Normal {| before := None; page := Some p; size := sz |} ->
  listUploads (db env) (user_id request) {| before := None; page := Some p; size := sz |}
    = Normal data ->
  exists resp link,
    userUploadsGet pagination request env = Normal resp /\
    headers resp !! "Link" = Some (Str link) /\
    link <> "" /\
    headers resp !! "Page" = Some (Num (Int p)).
Proof.
  intros Hp Hl.
  destruct (getLinkHeader_offset_truthy (pathname request) p sz (Uploads.uploads data)
              (Uploads.count data)) as (link & Hlink & Ht).
  eexists _, link.
  split; [apply (userUploadsGet_normal_eq request env _ data link Hp Hl Hlink) |].
  cbn [body headers].
  pose proof (headers_lookup {| before := None; page := Some p; size := sz |}
                (Uploads.count data) link) as Hh. cbv zeta in Hh.
  destruct Hh as (_ & _ & Hpg & Hlk & _).
  split; [etransitivity; [exact Hlk | now rewrite Ht] |].
  split; [now apply truthy_ne | exact Hpg].
Qed.

(** X8. The response of userPinsGet has one pin for each result of the data
    layer, in their order; the count of its body is the count of the data
    layer and the value of its Count header; its Link header is there
    exactly when the string of getLinkHeader is not empty. *)
Theorem pins_response (request : Request) (env : Env') (pr : PageRequest)
    (keys : list Key) (pinRequests : PinRequests.t PinRequest) (link : string) :
  pagination (searchParams request) = Normal pr ->
  error (validateSearchParams (Object_fromEntries (searchParams request))) = None ->
  listKeys (db env) (user_id request) = Normal keys ->
  listPsaPinRequests (db env) (map _id keys)
    {| psa_data := data (validateSearchParams (Object_fromEntries (searchParams request)));
       limit := prop (size pr);
       offset := mul (ToNumber (size pr)) (sub (ToNumber (page pr)) 1) |}
    = Normal pinRequests ->
  getLinkHeader (pathname request) pr (PinRequests.results pinRequests)
    (PinRequests.count pinRequests) = Normal link ->
  exists resp,
    userPinsGet pagination validateSearchParams toPinStatusResponse request env
      = Normal resp /\
    body_results _ (body resp)
      = map toPinStatusResponse (PinRequests.results pinRequests) /\
    length (body_results _ (body resp)) = length (PinRequests.results pinRequests) /\
    body_count _ (body resp) = PinRequests.count pinRequests /\
    headers resp !! "Count" = Some (prop (PinRequests.count pinRequests)) /\
    (is_Some (headers resp !! "Link") <-> link <> "").
Proof.
  intros Hp He Hk Hl Hlink.
  eexists. split;
    [apply (userPinsGet_normal request env pr keys pinRequests link Hp He Hk Hl Hlink) |].
  cbn [body headers body_results body_count].
  pose proof (headers_lookup pr (PinRequests.count pinRequests) link) as Hh.
  cbv zeta in Hh. destruct Hh as (Hc & _ & _ & Hlk & _).
  split; [reflexivity |]. split; [apply length_map |]. split; [reflexivity |].
  split; [exact Hc |]. rewrite Hlk, <- truthy_ne.
  destruct (truthy link); split; intros Hx; try reflexivity; eauto;
    try discriminate; destruct Hx; discriminate.
Qed.

(** X9. An error of the parser, and for userPinsGet an error of the validation
    of the query, is thrown as it is whatever the data layer holds: no result
    of the data layer is looked at. *)
Theorem errors_before_data_layer (request : Request) (env : Env') (err : ErrorObject) :
  (pagination (searchParams request) = Throw err ->
   userUploadsGet pagination request env = Throw (Raised err) /\
   userPinsGet pagination validateSearchParams toPinStatusResponse request env
     = Throw (Raised err)) /\
  (forall pr,
     pagination (searchParams request) = Normal pr ->
     error (validateSearchParams (Object_fromEntries (searchParams request))) = Some err ->
     userPinsGet pagination validateSearchParams toPinStatusResponse request env
       = Throw (Raised err)).
Proof.
  split.
  - intros Hp. unfold userUploadsGet, userPinsGet. rewrite Hp. now split.
  - intros pr Hp He. unfold userPinsGet. rewrite Hp. cbn [await Js.bind].
    now rewrite He.
Qed.

(** X10. A page request with neither before nor page reaches the data layer
    first: if the list call fails, its error is the one thrown; if it
    returns, userUploadsGet throws the error of getLinkHeader and builds no
    response. *)
Theorem unknown_page_request_surfaces (request : Request) (env : Env') (sz : option Z) :
  pagination (searchParams request)
    = Normal {| before := None; page := None; size := sz |} ->
  (forall data,
     listUploads (db env) (user_id request) {| before := None; page := None; size := sz |}
       = Normal data ->
     userUploadsGet pagination request env
       = Throw (New_Error "unknown page request type")) /\
  (forall err,
     listUploads (db env) (user_id request) {| before := None; page := None; size := sz |}
       = Throw err ->
     code err <> Some "RANGE_NOT_SATISFIABLE_ERROR_DB" ->
     userUploadsGet pagination request env = Throw (Raised err)).
Proof.
  intros Hp. split.
  - intros data Hl. unfold userUploadsGet. rewrite Hp. cbn [await Js.bind].
    rewrite Hl. reflexivity.
  - intros err Hl Hc. unfold userUploadsGet. rewrite Hp. cbn [await Js.bind].
    rewrite Hl. case_bool_decide; [contradiction | reflexivity].
Qed.

End ResponseHeaders.

(** ** The account handlers *)

Lemma split_head (sep : ascii) (s : string) :
  exists n segs,
    split sep s = n :: segs /\
    contains sep n = false /\
    (s = n \/ exists rest, s = n +:+ String sep rest).
Proof.
  induction s as [|c s (n & segs & Hs & Hn & Hrest)].
  - exists "", []. repeat split. now left.
  - cbn [split]. destruct (Ascii.eqb_spec c sep) as [->|Hc].
    + exists "", (split sep s). repeat split. right. now exists s.
    + rewrite Hs. exists (String c n), segs. split; [reflexivity |]. split.
      * cbn [contains]. rewrite Hn. now apply Ascii.eqb_neq in Hc as ->.
      * destruct Hrest as [-> | (rest & ->)]; [now left | right].
        exists rest. now rewrite append_cons.
Qed.

Lemma contains_append (c : ascii) (a b : string) :
  contains c (a +:+ b) = contains c a || contains c b.
Proof.
  induction a as [|d a IH]; [reflexivity |].
  rewrite append_cons. cbn [contains]. now rewrite IH, orb_assoc.
Qed.

(** X12. parseMagic names the user after the part of the email before its first
    at sign: the name has no at sign, and the email is the name alone or the
    name, an at sign and the rest; the picture is empty, there is no GitHub
    handle, and the email, the issuer and the public address are those of
    the metadata. *)
Theorem parseMagic_name_before_at (metadata : Account.Metadata.t) (email : string) :
  Account.Metadata.email metadata = Some email ->
  exists name,
    Account.parseMagic metadata
    = Normal {| Account.Parsed.name := Some (Json.JString name);
                Account.Parsed.picture := Some (Json.JString "");
                Account.Parsed.issuer := Account.Metadata.issuer metadata;
                Account.Parsed.email := Some email;
                Account.Parsed.github := None;
                Account.Parsed.publicAddress := Account.Metadata.publicAddress metadata |} /\
    contains "@" name = false /\
    (contains "@" email = false -> name = email) /\
    (contains "@" email = true -> exists rest, email = name +:+ "@" +:+ rest).
Proof.
  intros He. destruct (split_head "@" email) as (n & segs & Hs & Hn & Hrest).
  exists n. unfold Account.parseMagic. rewrite He, Hs. cbn [head fmap option_fmap option_map].
  split; [reflexivity |]. split; [exact Hn |].
  destruct Hrest as [-> | (rest & ->)].
  - split; [reflexivity | intros Hc; congruence].
  - rewrite contains_append. cbn [contains]. rewrite Ascii.eqb_refl, orb_true_r.
    split; [discriminate | intros _; now exists rest].
Qed.

Lemma member_Normal (v : option Json.t) (key : string) (r : option Json.t) :
  Account.member v key = Normal r ->
  exists o, v = Some o /\ o <> Json.JNull /\ r = Json.get o key.
Proof.
  destruct v as [[]|]; cbn; intros [= <-]; eexists; (split; [reflexivity |]);
    (split; [discriminate | reflexivity]).
Qed.

Lemma or_default_string (v : option Json.t) :
  Json.or v (Some (Json.JString "")) = Some (Json.JString "") \/
  (Json.or v (Some (Json.JString "")) = v /\ Json.truthy v = true).
Proof. unfold Json.or. destruct (Json.truthy v); [now right | now left]. Qed.

(** The two outcomes of parseGitHub, and when it returns. *)
Lemma parseGitHub_cases (data : option Json.t) (metadata : Account.Metadata.t) :
  (Account.parseGitHub data metadata = Throw (Account.Exn New_TypeError) \/
   exists parsed,
     Account.parseGitHub data metadata = Normal parsed /\
     (Account.Parsed.name parsed = Some (Json.JString "") \/
      Json.truthy (Account.Parsed.name parsed) = true) /\
     (Account.Parsed.picture parsed = Some (Json.JString "") \/
      Json.truthy (Account.Parsed.picture parsed) = true) /\
     Account.Parsed.issuer parsed = Some (default "" (Account.Metadata.issuer metadata)) /\
     Account.Parsed.email parsed = Account.Metadata.email metadata /\
     Account.Parsed.publicAddress parsed = Account.Metadata.publicAddress metadata) /\
  ((exists parsed, Account.parseGitHub data metadata = Normal parsed) <->
   exists d oauth userInfo,
     data = Some d /\ d <> Json.JNull /\
     Json.get d "oauth" = Some oauth /\ oauth <> Json.JNull /\
     Json.get oauth "userInfo" = Some userInfo /\ userInfo <> Json.JNull).
Proof.
  unfold Account.parseGitHub.
  destruct (Account.member data "oauth") as [oauth|e] eqn:Ho; cbn [Js.bind].
  2: { destruct data as [[]|]; cbn in Ho; try discriminate; injection Ho as <-;
       (split; [now left |]); (split; [intros [? [=]] |]);
       intros (d & o & u & [= <-] & Hd & _); congruence. }
  apply member_Normal in Ho as (d & -> & Hd & ->).
  destruct (Account.member (Json.get d "oauth") "userInfo") as [userInfo|e] eqn:Hu;
    cbn [Js.bind].
  2: { destruct (Json.get d "oauth") as [[]|] eqn:Hg; cbn in Hu; try discriminate;
       injection Hu as <-; (split; [now left |]); (split; [intros [? [=]] |]);
       intros (d' & o & u & [= <-] & _ & Hg' & Ho' & _); congruence. }
  apply member_Normal in Hu as (oauth & Hoauth & Hon & ->).
  destruct (Account.member (Json.get oauth "userInfo") "name") as [name|e] eqn:Hn;
    cbn [Js.bind].
  2: { destruct (Json.get oauth "userInfo") as [[]|] eqn:Hg; cbn in Hn; try discriminate;
       injection Hn as <-; (split; [now left |]); (split; [intros [? [=]] |]);
       intros (d' & o & u & [= <-] & _ & Hg' & _ & Hu' & Hun);
       rewrite Hoauth in Hg'; injection Hg' as <-; congruence. }
  apply member_Normal in Hn as (userInfo & Hui & Huin & ->).
  assert (Hm : forall k, Account.member (Some userInfo) k = Normal (Json.get userInfo k))
    by (intros k; destruct userInfo; cbn; congruence).
  assert (Hm' : forall k, Account.member (Some oauth) k = Normal (Json.get oauth k))
    by (intros k; destruct oauth; cbn; congruence).
  rewrite Hui, Hm, Hoauth, Hm'. cbn [Js.bind].
  split.
  - right. eexists. split; [reflexivity |]. cbn.
    destruct (or_default_string (Json.get userInfo "name")) as [-> | [-> ->]],
             (or_default_string (Json.get userInfo "picture")) as [-> | [-> ->]];
      repeat split; auto.
  - split; [intros _ | intros _; eauto].
    exists d, oauth, userInfo. repeat split; assumption.
Qed.

Lemma member_not_null (o : Json.t) (key : string) :
  o <> Json.JNull -> Account.member (Some o) key = Normal (Json.get o key).
Proof. destruct o; cbn; congruence. Qed.

(** X13. When the data, its oauth and the userInfo of that are neither null
    nor undefined, parseGitHub returns the user whose name and picture are
    the name and the picture of the userInfo when they are truthy and the
    empty string otherwise, whose github is the userHandle of the oauth,
    whose issuer is the issuer of the metadata, or the empty string when it
    has none, and whose email and public address are those of the metadata.
    It returns in no other case, and what it throws then is a TypeError. *)
Theorem parseGitHub_defaults (data : option Json.t) (metadata : Account.Metadata.t) :
  (forall d oauth userInfo,
     data = Some d -> d <> Json.JNull ->
     Json.get d "oauth" = Some oauth -> oauth <> Json.JNull ->
     Json.get oauth "userInfo" = Some userInfo -> userInfo <> Json.JNull ->
     Account.parseGitHub data metadata
     = Normal
         {| Account.Parsed.name :=
              if Json.truthy (Json.get userInfo "name")
              then Json.get userInfo "name"
              else Some (Json.JString "");
            Account.Parsed.picture :=
              if Json.truthy (Json.get userInfo "picture")
              then Json.get userInfo "picture"
              else Some (Json.JString "");
            Account.Parsed.issuer :=
              Some match Account.Metadata.issuer metadata with
                   | Some issuer => issuer
                   | None => ""
                   end;
            Account.Parsed.email := Account.Metadata.email metadata;
            Account.Parsed.github := Json.get oauth "userHandle";
            Account.Parsed.publicAddress := Account.Metadata.publicAddress metadata |}) /\
  (forall parsed,
     Account.parseGitHub data metadata = Normal parsed ->
     exists d oauth userInfo,
       data = Some d /\ d <> Json.JNull /\
       Json.get d "oauth" = Some oauth /\ oauth <> Json.JNull /\
       Json.get oauth "userInfo" = Some userInfo /\ userInfo <> Json.JNull) /\
  (forall e,
     Account.parseGitHub data metadata = Throw e -> e = Account.Exn New_TypeError).
Proof.
  split; [| split].
  - intros d oauth userInfo -> Hd Ho Hon Hu Hun. unfold Account.parseGitHub.
    rewrite (member_not_null d _ Hd), Ho. cbn [Js.bind].
    rewrite !(member_not_null oauth _ Hon), Hu. cbn [Js.bind].
    rewrite !(member_not_null userInfo _ Hun). cbn [Js.bind].
    unfold Json.or. destruct (Account.Metadata.issuer metadata); reflexivity.
  - intros parsed Hp. apply (parseGitHub_cases data metadata). eauto.
  - intros e He. destruct (parseGitHub_cases data metadata) as [[Ht | (q & Hq & _)] _].
    + congruence.
    + congruence.
Qed.

Lemma parseMagic_fields (metadata : Account.Metadata.t) (parsed : Account.Parsed.t) :
  Account.parseMagic metadata = Normal parsed ->
  Account.Parsed.issuer parsed = Account.Metadata.issuer metadata /\
  Account.Parsed.email parsed = Account.Metadata.email metadata /\
  Account.Parsed.publicAddress parsed = Account.Metadata.publicAddress metadata.
Proof.
  unfold Account.parseMagic. destruct (Account.Metadata.email metadata) as [e|] eqn:He;
    [| discriminate].
  intros [= <-]. cbn. auto.
Qed.

Lemma parseGitHub_fields (data : option Json.t) (metadata : Account.Metadata.t)
    (parsed : Account.Parsed.t) :
  Account.parseGitHub data metadata = Normal parsed ->
  Account.Parsed.issuer parsed = Some (default "" (Account.Metadata.issuer metadata)) /\
  Account.Parsed.email parsed = Account.Metadata.email metadata /\
  Account.Parsed.publicAddress parsed = Account.Metadata.publicAddress metadata.
Proof.
  unfold Account.parseGitHub.
  repeat (match goal with
          | |- context [Js.bind ?c _] => destruct c; cbn [Js.bind]
          end); try discriminate.
  intros [= <-]. now cbn.
Qed.

Lemma truthy_opt_default (o : option string) :
  truthy_opt o = true -> truthy_opt (Some (default "" o)) = true.
Proof. destruct o; [trivial | discriminate]. Qed.

Section AccountHandlers.

Context {World Key Upload : Type}.
Variables NO_READ_OR_WRITE READ_WRITE READ_ONLY : string.
Variable maintenanceHandler : completion Account.exn (option Account.User.t).
Variable bypass : @Account.TestModeBypass World Key Upload.

Abbreviation loginOrRegister :=
  (Account.loginOrRegister NO_READ_OR_WRITE READ_WRITE READ_ONLY maintenanceHandler bypass).
Abbreviation userLoginPost :=
  (Account.userLoginPost NO_READ_OR_WRITE READ_WRITE READ_ONLY maintenanceHandler bypass).

(** What loginOrRegister leaves: the world as it was, or, in the READ_WRITE
    mode, the world after one upsertUser of a user whose issuer, email and
    public address are all non-empty strings. *)
Lemma loginOrRegister_world (request : Account.Request.t)
    (env : @Account.Env World Key Upload) (w : World) :
  snd (loginOrRegister request env w) = w \/
  (Account.MODE env = READ_WRITE /\
   exists parsed,
     truthy_opt (Account.Parsed.issuer parsed) = true /\
     truthy_opt (Account.Parsed.email parsed) = true /\
     truthy_opt (Account.Parsed.publicAddress parsed) = true /\
     snd (loginOrRegister request env w)
       = snd (Account.upsertUser (Account.db env) parsed w)).
Proof.
  unfold Account.loginOrRegister, Account.bind, Account.read, Account.call,
    Account.step, Account.ret, Account.throw.
  destruct (Account.Request.json request) as [data|]; cbn [fst snd]; [| now left].
  destruct (Account.parseAuthorizationHeader _ _) as [token|]; cbn [fst snd]; [| now left].
  destruct (Account.authenticate env bypass token) as [metadata|]; cbn [fst snd];
    [| now left].
  destruct (truthy_opt (Account.Metadata.issuer metadata)) eqn:Hi; cbn [negb orb];
    [| now left].
  destruct (truthy_opt (Account.Metadata.email metadata)) eqn:He; cbn [negb orb];
    [| now left].
  destruct (truthy_opt (Account.Metadata.publicAddress metadata)) eqn:Ha; cbn [negb orb];
    [| now left].
  destruct (Account.member (Some data) "type") as [type|]; cbn [fst snd]; [| now left].
  assert (Hparsed : forall parsed,
            (if Account.strict_eq_string type "github"
             then Account.parseGitHub (Json.get data "data") metadata
             else Account.parseMagic metadata) = Normal parsed ->
            truthy_opt (Account.Parsed.issuer parsed) = true /\
            truthy_opt (Account.Parsed.email parsed) = true /\
            truthy_opt (Account.Parsed.publicAddress parsed) = true).
  { intros parsed Hp. destruct (Account.strict_eq_string type "github").
    - apply parseGitHub_fields in Hp as (-> & -> & ->).
      now rewrite truthy_opt_default.
    - apply parseMagic_fields in Hp as (-> & -> & ->). auto. }
  destruct (if Account.strict_eq_string type "github" then _ else _) as [parsed|];
    cbn [fst snd]; [| now left].
  destruct (String.eqb_spec (Account.MODE env) NO_READ_OR_WRITE); [now left |].
  destruct (String.eqb_spec (Account.MODE env) READ_WRITE) as [Hrw|].
  - right. split; [exact Hrw |]. exists parsed.
    destruct (Hparsed parsed eq_refl) as (? & ? & ?).
    repeat (split; [assumption |]).
    destruct (Account.upsertUser _ _ _) as [[user|err] w']; reflexivity.
  - destruct (String.eqb_spec (Account.MODE env) READ_ONLY); [| now left].
    destruct (Account.getUser _ _ _); now left.
Qed.

(** X14. The login changes the world in one way only: in the READ_WRITE mode, by
    one upsertUser of a user whose issuer, email and public address are all
    non-empty strings. In every other mode, and whenever it throws before
    that call, it leaves the world as it was. *)
Theorem login_writes_only_by_upsert (request : Account.Request.t)
    (env : @Account.Env World Key Upload) (w : World) :
  snd (userLoginPost request env w) = w \/
  (Account.MODE env = READ_WRITE /\
   exists parsed,
     truthy_opt (Account.Parsed.issuer parsed) = true /\
     truthy_opt (Account.Parsed.email parsed) = true /\
     truthy_opt (Account.Parsed.publicAddress parsed) = true /\
     snd (userLoginPost request env w)
       = snd (Account.upsertUser (Account.db env) parsed w)).
Proof.
  assert (Hs : snd (userLoginPost request env w) = snd (loginOrRegister request env w)).
  { unfold Account.userLoginPost, Account.bind at 1.
    destruct (loginOrRegister request env w) as [[[user|]|e] w']; reflexivity. }
  rewrite Hs. apply loginOrRegister_world.
Qed.

(** X15. In a mode that is none of the three modes, the login never answers: it
    throws, and leaves the world as it was. When the body is read, the token
    authenticated, the metadata complete and the user parsed, what it throws
    is the error Unknown maintenance mode. *)
Theorem login_unknown_mode_never_answers (request : Account.Request.t)
    (env : @Account.Env World Key Upload) (w : World) :
  Account.MODE env <> NO_READ_OR_WRITE ->
  Account.MODE env <> READ_WRITE ->
  Account.MODE env <> READ_ONLY ->
  (exists e, userLoginPost request env w = (Throw e, w)) /\
  (forall data token metadata type parsed,
     Account.Request.json request = Normal data ->
     Account.parseAuthorizationHeader (Account.magic env)
       (default "" (Account.Request.Authorization request)) = Normal token ->
     Account.authenticate env bypass token = Normal metadata ->
     truthy_opt (Account.Metadata.issuer metadata) = true ->
     truthy_opt (Account.Metadata.email metadata) = true ->
     truthy_opt (Account.Metadata.publicAddress metadata) = true ->
     Account.member (Some data) "type" = Normal type ->
     (if Account.strict_eq_string type "github"
      then Account.parseGitHub (Json.get data "data") metadata
      else Account.parseMagic metadata) = Normal parsed ->
     userLoginPost request env w
       = (Throw (Account.Exn (New_Error "Unknown maintenance mode")), w)).
Proof.
  intros H1 H2 H3. split.
  - assert (Hl : exists e, loginOrRegister request env w = (Throw e, w)).
    { unfold Account.loginOrRegister, Account.bind, Account.read, Account.call,
        Account.step, Account.ret, Account.throw.
      destruct (String.eqb_spec (Account.MODE env) NO_READ_OR_WRITE); [contradiction |].
      destruct (String.eqb_spec (Account.MODE env) READ_WRITE); [contradiction |].
      destruct (String.eqb_spec (Account.MODE env) READ_ONLY); [contradiction |].
      destruct (Account.Request.json request) as [data|]; [| eauto].
      destruct (Account.parseAuthorizationHeader _ _) as [token|]; [| eauto].
      destruct (Account.authenticate env bypass token) as [metadata|]; [| eauto].
      destruct (negb _ || negb _ || negb _); [eauto |].
      destruct (Account.member (Some data) "type") as [type|]; [| eauto].
      destruct (if Account.strict_eq_string type "github" then _ else _); eauto. }
    destruct Hl as [e Hl]. exists e.
    unfold Account.userLoginPost, Account.bind. now rewrite Hl.
  - intros data token metadata type parsed Hj Ht Ha Hi He Hp Hty Hparsed.
    unfold Account.userLoginPost, Account.loginOrRegister, Account.bind, Account.read,
      Account.call, Account.step, Account.ret, Account.throw.
    rewrite Hj, Ht, Ha, Hi, He, Hp. cbn [negb orb]. rewrite Hty, Hparsed.
    destruct (String.eqb_spec (Account.MODE env) NO_READ_OR_WRITE); [contradiction |].
    destruct (String.eqb_spec (Account.MODE env) READ_WRITE); [contradiction |].
    destruct (String.eqb_spec (Account.MODE env) READ_ONLY); [contradiction |].
    reflexivity.
Qed.

Variable JWT_ISSUER : string.
Variable JWT_sign : Account.Claims.t -> string -> completion ErrorObject string.
Variable savePaymentSettings :
  @Account.Env World Key Upload -> string -> option Json.t -> World ->
  completion ErrorObject unit * World.

(** X16. A login with a token of the test bypass, in the READ_WRITE mode and with
    a body whose type is not github, asks nothing of the authentication
    provider: it upserts the user named testMode, with the email
    testMode@magic.link and the issuer of the bypass as issuer and public
    address, and answers with the issuer of the user the data layer gives
    back. *)
Theorem testmode_login_upserts_testMode (request : Account.Request.t)
    (env : @Account.Env World Key Upload) (w : World) (body : Json.t)
    (token issuer : string) :
  Account.Request.json request = Normal body ->
  Account.parseAuthorizationHeader (Account.magic env)
    (default "" (Account.Request.Authorization request)) = Normal token ->
  Account.isEnabledForToken bypass env token = true ->
  Account.authenticateMagicToken bypass env token = Normal (Some issuer) ->
  issuer <> "" ->
  body <> Json.JNull ->
  Account.strict_eq_string (Json.get body "type") "github" = false ->
  Account.MODE env = READ_WRITE ->
  READ_WRITE <> NO_READ_OR_WRITE ->
  userLoginPost request env w
  = match
      Account.upsertUser (Account.db env)
        {| Account.Parsed.name := Some (Json.JString "testMode");
           Account.Parsed.picture := Some (Json.JString "");
           Account.Parsed.issuer := Some issuer;
           Account.Parsed.email := Some "testMode@magic.link";
           Account.Parsed.github := None;
           Account.Parsed.publicAddress := Some issuer |} w
    with
    | (Normal user, w') =>
        (Normal (Account.JSONResponse (Account.User.issuer user) None []), w')
    | (Throw err, w') => (Throw (Account.Exn (Raised err)), w')
    end.
Proof.
  intros Hj Ht Hen Hau Hi Hb Hty Hm Hne.
  unfold Account.userLoginPost, Account.loginOrRegister, Account.bind, Account.read,
    Account.call, Account.step, Account.ret, Account.throw.
  rewrite Hj, Ht. unfold Account.authenticate, Account.createTestmodeMetadata.
  rewrite Hen, Hau. cbn [Account.Metadata.issuer Account.Metadata.email
                         Account.Metadata.publicAddress truthy_opt].
  assert (Hti : truthy issuer = true) by now apply truthy_ne.
  rewrite Hti. cbn [truthy negb orb].
  assert (Hmem : Account.member (Some body) "type" = Normal (Json.get body "type"))
    by (destruct body; cbn; congruence).
  rewrite Hmem, Hty, Hm.
  destruct (String.eqb_spec READ_WRITE NO_READ_OR_WRITE); [contradiction |].
  rewrite String.eqb_refl.
  unfold Account.parseMagic. cbn.
  destruct (Account.upsertUser _ _ _) as [[user|err] w']; reflexivity.
Qed.

(** X17. userTokensPost creates a key for a name that is a non-empty string and
    for no other body: a null body makes it throw a TypeError, and every
    other body without such a name the error invalid name with the status
    400, in both cases before it signs anything and with the world left as
    it was. For such a name it signs the issuer of the user, the issuer of
    the service, the time and the name, creates the key of the user with the
    name and the secret, and answers with the key and the status 201. *)
Theorem tokens_post_needs_name (now : Z) (request : Account.Request.t)
    (env : @Account.Env World Key Upload) (w : World) (body : Json.t) :
  Account.Request.json request = Normal body ->
  (body = Json.JNull ->
   Account.userTokensPost JWT_ISSUER JWT_sign now request env w
     = (Throw (Account.Exn New_TypeError), w)) /\
  (body <> Json.JNull ->
   (forall n, Json.get body "name" = Some (Json.JString n) -> n = "") ->
   Account.userTokensPost JWT_ISSUER JWT_sign now request env w
     = (Throw (Account.New_Error_status "invalid name" 400), w)) /\
  (forall n,
     Json.get body "name" = Some (Json.JString n) -> n <> "" ->
     Account.userTokensPost JWT_ISSUER JWT_sign now request env w
     = match
         JWT_sign {| Account.Claims.sub := Account.User.issuer (Account.Request.auth_user request);
                     Account.Claims.iss := JWT_ISSUER;
                     Account.Claims.iat := now;
                     Account.Claims.name := Some (Json.JString n) |} (Account.SALT env)
       with
       | Throw err => (Throw (Account.Exn (Raised err)), w)
       | Normal secret =>
           match
             Account.createKey (Account.db env)
               {| Account.NewKey.user := Account.User._id (Account.Request.auth_user request);
                  Account.NewKey.name := Some (Json.JString n);
                  Account.NewKey.secret := secret |} w
           with
           | (Normal key, w') => (Normal (Account.JSONResponse key (Some 201) []), w')
           | (Throw err, w') => (Throw (Account.Exn (Raised err)), w')
           end
       end).
Proof.
  intros Hj.
  unfold Account.userTokensPost, Account.bind, Account.read, Account.call,
    Account.step, Account.ret, Account.throw.
  rewrite Hj. split; [intros ->; reflexivity |]. split.
  - intros Hb Hn.
    assert (Hmem : Account.member (Some body) "name" = Normal (Json.get body "name"))
      by (destruct body; cbn; congruence).
    rewrite Hmem.
    destruct (Json.get body "name") as [[|b|z|n|l|fs]|];
      cbn [Json.truthy Json.is_string negb]; rewrite ?orb_true_r; try reflexivity.
    rewrite (Hn n eq_refl). reflexivity.
  - intros n Hn Hne.
    assert (Hmem : Account.member (Some body) "name" = Normal (Json.get body "name"))
      by (destruct body; cbn in *; congruence).
    rewrite Hmem, Hn. cbn [Json.truthy Json.is_string].
    apply truthy_ne in Hne. rewrite Hne. cbn [negb orb].
    destruct (JWT_sign _ _) as [secret|err]; [| reflexivity].
    destruct (Account.createKey _ _ _) as [[key|err] w']; reflexivity.
Qed.


(** X19. userPaymentPut saves the payment method exactly when the id of the
    method of the body is a string, the empty string too, and then answers
    with the status 202 and the location /user/payment as body and header;
    for every other body, a null one too, it throws the error Invalid
    payment method with the status 400 and saves nothing. *)
Theorem payment_put_needs_string_id (request : Account.Request.t)
    (env : @Account.Env World Key Upload) (w : World) (body : Json.t) :
  Account.Request.json request = Normal body ->
  (forall id,
     Json.get_opt (Json.get_opt (Some body) "method") "id" = Some (Json.JString id) ->
     Account.userPaymentPut savePaymentSettings request env w
     = match
         savePaymentSettings env (Account.User._id (Account.Request.auth_user request))
           (Some (Json.JString id)) w
       with
       | (Normal _, w') =>
           (Normal (Account.JSONResponse "/user/payment" (Some 202)
                      [("location", "/user/payment")]), w')
       | (Throw err, w') => (Throw (Account.Exn (Raised err)), w')
       end) /\
  ((forall id,
      Json.get_opt (Json.get_opt (Some body) "method") "id" <> Some (Json.JString id)) ->
   Account.userPaymentPut savePaymentSettings request env w
     = (Throw (Account.New_Error_status "Invalid payment method" 400), w)) /\
  (body = Json.JNull ->
   Account.userPaymentPut savePaymentSettings request env w
     = (Throw (Account.New_Error_status "Invalid payment method" 400), w)).
Proof.
  intros Hj.
  unfold Account.userPaymentPut, Account.bind, Account.read, Account.call,
    Account.step, Account.ret, Account.throw.
  rewrite Hj. split; [| split].
  - intros id ->. cbn [Json.is_string negb].
    destruct (savePaymentSettings _ _ _ _) as [[[]|err] w']; reflexivity.
  - intros Hid.
    destruct (Json.get_opt (Json.get_opt (Some body) "method") "id")
      as [[|b|z|id|l|fs]|]; try reflexivity.
    now destruct (Hid id).
  - intros ->. reflexivity.
Qed.

End AccountHandlers.

(** ** The further properties at sample inputs *)

Lemma cursor_throws_iff_size_zero_no_item_witness :
  exists rels,
    getLinkRels "/user/uploads" Sample.cursor [Sample.item "T2"; Sample.item "T1"] None
      = Normal rels /\
    emits "next" rels = true.
Proof.
  destruct (cursor_throws_iff_size_zero_no_item "/user/uploads"
              "2022-03-01T10:00:00.000Z" None (Some 2)
              [Sample.item "T2"; Sample.item "T1"] None) as [_ Hr].
  destruct Hr as (rels & Hrels & _ & Hn); [intros [[=] _] |].
  exists rels. split; [exact Hrels |]. apply Hn. reflexivity.
Defined.

Lemma offset_single_page_header_witness :
  0 < 2 <= 2 /\
  getLinkHeader "/user/uploads" Sample.offset ([] : list Item) (Some 2)
  = Normal (relation ("/user/uploads" +:+ "?" +:+ offset_query 2 1) "last" +:+ ", "
            +:+ relation ("/user/uploads" +:+ "?" +:+ offset_query 2 1) "first").
Proof.
  split; [lia |].
  apply (offset_single_page_header "/user/uploads" 2 2 ([] : list Item)). lia.
Defined.

Lemma offset_degenerate_size_witness :
  0 < 3 /\
  exists rels,
    getLinkRels "/user/uploads" {| before := None; page := Some 7; size := Some 0 |}
      ([] : list Item) (Some 3) = Normal rels /\
    relation ("/user/uploads" +:+ "?" +:+ offset_query 0 (7 + 1)) "next" ∈ rels.
Proof.
  split; [lia |].
  destruct (offset_degenerate_size "/user/uploads" 7 3 ([] : list Item)) as [Hz _].
  apply Hz. lia.
Defined.

Lemma uploads_response_headers_witness :
  exists resp,
    userUploadsGet Sample.pagination_cursor Sample.request
      {| db := Sample.db_with_count (Some 1) |} = Normal resp /\
    headers resp !! "Size" = Some (Num (Int 2)) /\
    headers resp !! "Page" = None.
Proof.
  destruct (uploads_response_headers Sample.pagination_cursor Sample.request
              {| db := Sample.db_with_count (Some 1) |} Sample.cursor
              {| Uploads.uploads := [Sample.item "2022-02-01T10:00:00.000Z"];
                 Uploads.count := Some 1 |} "")
    as (resp & Hr & _ & Hs & Hp & _); [reflexivity | reflexivity | reflexivity |].
  exists resp. split; [exact Hr |]. split; [exact Hs | exact Hp].
Defined.

Lemma offset_response_always_has_link_witness :
  exists resp link,
    userUploadsGet (fun _ => Normal Sample.offset) Sample.request
      {| db := Sample.db_with_count (Some 5) |} = Normal resp /\
    headers resp !! "Link" = Some (Str link) /\
    link <> "".
Proof.
  destruct (offset_response_always_has_link (fun _ => Normal Sample.offset)
              Sample.request {| db := Sample.db_with_count (Some 5) |} 1 (Some 2)
              {| Uploads.uploads := [Sample.item "2022-02-01T10:00:00.000Z"];
                 Uploads.count := Some 5 |})
    as (resp & link & Hr & Hl & Hne & _); [reflexivity | reflexivity |].
  exists resp, link. split; [exact Hr |]. split; [exact Hl | exact Hne].
Defined.

Lemma pins_response_witness :
  exists resp,
    userPinsGet Sample.pagination_cursor Sample.validate Sample.toPinStatusResponse
      Sample.request {| db := Sample.db_with_count (Some 0) |} = Normal resp /\
    body_results _ (body resp) = [] /\
    headers resp !! "Count" = Some (Num (Int 0)).
Proof.
  destruct (pins_response Sample.pagination_cursor Sample.validate
              Sample.toPinStatusResponse Sample.request
              {| db := Sample.db_with_count (Some 0) |} Sample.cursor []
              {| PinRequests.results := []; PinRequests.count := Some 0 |} "")
    as (resp & Hr & Hb & _ & _ & Hc & _);
    [reflexivity | reflexivity | reflexivity | reflexivity | reflexivity |].
  exists resp. split; [exact Hr |]. split; [exact Hb | exact Hc].
Defined.

Lemma errors_before_data_layer_witness :
  userUploadsGet (fun _ => Throw Sample.other_error) Sample.request
    {| db := Sample.db_with_count (Some 1) |} = Throw (Raised Sample.other_error) /\
  userPinsGet Sample.pagination_cursor
    (fun _ => {| error := Some Sample.other_error; data := tt |})
    Sample.toPinStatusResponse Sample.request {| db := Sample.db_with_count (Some 1) |}
  = Throw (Raised Sample.other_error).
Proof.
  split.
  - apply (errors_before_data_layer (fun _ => Throw Sample.other_error) Sample.validate
             Sample.toPinStatusResponse Sample.request
             {| db := Sample.db_with_count (Some 1) |} Sample.other_error).
    reflexivity.
  - apply (proj2 (errors_before_data_layer Sample.pagination_cursor
                    (fun _ => {| error := Some Sample.other_error; data := tt |})
                    Sample.toPinStatusResponse Sample.request
                    {| db := Sample.db_with_count (Some 1) |} Sample.other_error)
             Sample.cursor); reflexivity.
Defined.

Lemma unknown_page_request_surfaces_witness :
  userUploadsGet (fun _ => Normal {| before := None; page := None; size := Some 2 |})
    Sample.request {| db := Sample.db_with_count (Some 1) |}
  = Throw (New_Error "unknown page request type") /\
  userUploadsGet (fun _ => Normal {| before := None; page := None; size := Some 2 |})
    Sample.request {| db := Sample.failing_db Sample.other_error |}
  = Throw (Raised Sample.other_error).
Proof.
  split.
  - apply (proj1 (unknown_page_request_surfaces
                    (fun _ => Normal {| before := None; page := None; size := Some 2 |})
                    Sample.request {| db := Sample.db_with_count (Some 1) |} (Some 2)
                    eq_refl)
             {| Uploads.uploads := [Sample.item "2022-02-01T10:00:00.000Z"];
                Uploads.count := Some 1 |}).
    reflexivity.
  - apply (proj2 (unknown_page_request_surfaces
                    (fun _ => Normal {| before := None; page := None; size := Some 2 |})
                    Sample.request {| db := Sample.failing_db Sample.other_error |}
                    (Some 2) eq_refl) Sample.other_error); [reflexivity | discriminate].
Defined.

Lemma parseMagic_name_before_at_witness :
  exists name rest,
    contains "@" name = false /\ "alice@example.org" = name +:+ "@" +:+ rest.
Proof.
  destruct (parseMagic_name_before_at
              {| Account.Metadata.issuer := Some "did:ethr:0x1";
                 Account.Metadata.email := Some "alice@example.org";
                 Account.Metadata.publicAddress := Some "0x1" |} "alice@example.org"
              eq_refl) as (name & _ & Hn & _ & Hrest).
  destruct (Hrest eq_refl) as [rest Hr].
  exists name, rest. split; [exact Hn | exact Hr].
Defined.

Lemma parseGitHub_defaults_witness :
  Account.parseGitHub (Some AccountSample.github_data)
    {| Account.Metadata.issuer := None; Account.Metadata.email := Some "alice@example.org";
       Account.Metadata.publicAddress := Some "0x1" |}
  = Normal {| Account.Parsed.name := Some (Json.JString "Alice");
              Account.Parsed.picture := Some (Json.JString "");
              Account.Parsed.issuer := Some "";
              Account.Parsed.email := Some "alice@example.org";
              Account.Parsed.github := Some (Json.JString "alice");
              Account.Parsed.publicAddress := Some "0x1" |}.
Proof.
  apply (proj1 (parseGitHub_defaults (Some AccountSample.github_data)
                  {| Account.Metadata.issuer := None;
                     Account.Metadata.email := Some "alice@example.org";
                     Account.Metadata.publicAddress := Some "0x1" |})
           AccountSample.github_data
           (Json.JObject
              [("userInfo", Json.JObject [("name", Json.JString "Alice")]);
               ("userHandle", Json.JString "alice")])
           (Json.JObject [("name", Json.JString "Alice")]));
    first [reflexivity | discriminate].
Defined.

(** A login with a token of the test bypass and an object as body, in the
    mode w-, which is none of the three: it reaches the choice of the mode. *)
Lemma login_unknown_mode_never_answers_witness :
  Account.userLoginPost "--" "rw" "r-" AccountSample.maintenanceHandler
    AccountSample.bypass (AccountSample.request (Json.JObject []) "test-token")
    (AccountSample.env "w-") []
  = (Throw (Account.Exn (New_Error "Unknown maintenance mode")), []).
Proof.
  apply (proj2 (login_unknown_mode_never_answers "--" "rw" "r-"
                  AccountSample.maintenanceHandler AccountSample.bypass
                  (AccountSample.request (Json.JObject []) "test-token")
                  (AccountSample.env "w-") []
                  ltac:(discriminate) ltac:(discriminate) ltac:(discriminate))
           (Json.JObject []) "test-token"
           {| Account.Metadata.issuer := Some "did:ethr:test";
              Account.Metadata.email := Some "testMode@magic.link";
              Account.Metadata.publicAddress := Some "did:ethr:test" |}
           None
           {| Account.Parsed.name := Some (Json.JString "testMode");
              Account.Parsed.picture := Some (Json.JString "");
              Account.Parsed.issuer := Some "did:ethr:test";
              Account.Parsed.email := Some "testMode@magic.link";
              Account.Parsed.github := None;
              Account.Parsed.publicAddress := Some "did:ethr:test" |});
    reflexivity.
Defined.

Lemma testmode_login_upserts_testMode_witness :
  Account.userLoginPost "--" "rw" "r-" AccountSample.maintenanceHandler
    AccountSample.bypass (AccountSample.request (Json.JObject []) "test-token")
    (AccountSample.env "rw") []
  = (Normal (Account.JSONResponse "did:ethr:test" None []), ["did:ethr:test"]).
Proof.
  rewrite (testmode_login_upserts_testMode "--" "rw" "r-" AccountSample.maintenanceHandler
             AccountSample.bypass (AccountSample.request (Json.JObject []) "test-token")
             (AccountSample.env "rw") [] (Json.JObject []) "test-token" "did:ethr:test");
    try reflexivity; discriminate.
Defined.

Lemma tokens_post_needs_name_witness :
  Account.userTokensPost "web3-storage" AccountSample.JWT_sign 1650000000000
    (AccountSample.request (Json.JObject [("name", Json.JString "")]) "token")
    (AccountSample.env "rw") []
  = (Throw (Account.New_Error_status "invalid name" 400), []) /\
  Account.userTokensPost "web3-storage" AccountSample.JWT_sign 1650000000000
    (AccountSample.request (Json.JObject [("name", Json.JString "laptop")]) "token")
    (AccountSample.env "rw") []
  = (Normal (Account.JSONResponse "did:ethr:0x1.salt" (Some 201) []),
     ["did:ethr:0x1.salt"]).
Proof.
  split.
  - apply (tokens_post_needs_name "web3-storage" AccountSample.JWT_sign 1650000000000
             (AccountSample.request (Json.JObject [("name", Json.JString "")]) "token")
             (AccountSample.env "rw") [] (Json.JObject [("name", Json.JString "")])
             eq_refl); [discriminate |].
    intros n [= <-]. reflexivity.
  - rewrite (proj2 (proj2 (tokens_post_needs_name "web3-storage" AccountSample.JWT_sign
                             1650000000000
                             (AccountSample.request
                                (Json.JObject [("name", Json.JString "laptop")]) "token")
                             (AccountSample.env "rw") []
                             (Json.JObject [("name", Json.JString "laptop")]) eq_refl))
               "laptop"); [reflexivity | reflexivity | discriminate].
Defined.


Lemma payment_put_needs_string_id_witness :
  Account.userPaymentPut AccountSample.savePaymentSettings
    (AccountSample.request
       (Json.JObject [("method", Json.JObject [("id", Json.JString "")])]) "token")
    (AccountSample.env "rw") []
  = (Normal (Account.JSONResponse "/user/payment" (Some 202)
               [("location", "/user/payment")]), ["1"]) /\
  Account.userPaymentPut AccountSample.savePaymentSettings
    (AccountSample.request Json.JNull "token") (AccountSample.env "rw") []
  = (Throw (Account.New_Error_status "Invalid payment method" 400), []).
Proof.
  split.
  - rewrite (proj1 (payment_put_needs_string_id AccountSample.savePaymentSettings
                      (AccountSample.request
                         (Json.JObject [("method", Json.JObject [("id", Json.JString "")])])
                         "token")
                      (AccountSample.env "rw") [] _ eq_refl) ""); reflexivity.
  - apply (payment_put_needs_string_id AccountSample.savePaymentSettings
             (AccountSample.request Json.JNull "token") (AccountSample.env "rw") []
             Json.JNull eq_refl). reflexivity.
Defined.

(** ** The list call of [userPinsGet] *)

Section PinsQuery.

Context {Upload PinRequest PinStatus PsaData : Type}.
Context `{Created Upload} `{Created PinRequest}.

Variable pagination : list (string * string) -> completion ErrorObject PageRequest.
Variable validateSearchParams : gmap string string -> PsaParams PsaData.
Variable toPinStatusResponse : PinRequest -> PinStatus.

(** X11. userPinsGet looks at the pin requests of the data layer through one list
    call only: for the ids of the keys of the user, with the size as limit
    and, for a request with a page, size * (page - 1) as offset; for a request
    without a page the offset is NaN. Two data layers that agree on the keys
    and on that call give the same outcome. *)
Theorem pins_list_call (request : Request) (env env' : @Env Upload PinRequest PsaData)
    (b : option string) (pg : option Z) (s : Z) (keys : list Key) :
  pagination (searchParams request) = Normal {| before := b; page := pg; size := Some s |} ->
  listKeys (db env) (user_id request) = Normal keys ->
  listKeys (db env') (user_id request) = Normal keys ->
  let query :=
    {| psa_data := data (validateSearchParams (Object_fromEntries (searchParams request)));
       limit := Num (Int s);
       offset := match pg with
                 | Some p => Int (s * (p - 1))
                 | None => NaN
                 end |} in
  listPsaPinRequests (db env) (map _id keys) query
    = listPsaPinRequests (db env') (map _id keys) query ->
  userPinsGet pagination validateSearchParams toPinStatusResponse request env
  = userPinsGet pagination validateSearchParams toPinStatusResponse request env'.
Proof.
  intros Hp Hk Hk' query Hq. subst query. unfold userPinsGet.
  rewrite Hp. cbn [await Js.bind]. cbv zeta.
  destruct (error _); [reflexivity |].
  rewrite Hk, Hk'. cbn [await Js.bind size page prop ToNumber].
  assert (Ho : mul (Int s) (sub (ToNumber pg) 1)
               = match pg with Some p => Int (s * (p - 1)) | None => NaN end)
    by (destruct pg; reflexivity).
  rewrite Ho, Hq. reflexivity.
Qed.

End PinsQuery.

Lemma pins_list_call_witness :
  userPinsGet PinsSample.third_page Sample.validate Sample.toPinStatusResponse
    Sample.request {| db := Sample.db_with_count (Some 0) |}
  = userPinsGet PinsSample.third_page Sample.validate Sample.toPinStatusResponse
      Sample.request {| db := PinsSample.db_offset_20 |}.
Proof.
  apply (pins_list_call PinsSample.third_page Sample.validate Sample.toPinStatusResponse
           Sample.request {| db := Sample.db_with_count (Some 0) |}
           {| db := PinsSample.db_offset_20 |} None (Some 3) 10 []); reflexivity.
Defined.
